(** * tap-todoist: a shallow embedding of the Todoist sync connector

    The development follows the layout of the Python package:
    - [catalog]        : [tap_todoist/catalog.py], the static [SCHEMAS] table;
    - [base_connector] : [tap_todoist/base_connector.py], [HTTPConnector];
    - [tap]            : [tap_todoist/tap.py], [BearerAuth], [TodoistClient],
                         [SyncStream] and [TapTodoist].

    Python objects that are mutated in place (the connector, its catalog, the
    requests session) are threaded explicitly through a state-and-exception
    monad; a raised exception keeps every mutation made before it.

    Conventions.  A Python [str] is a Rocq [string] whose characters are read
    as the code points 0..255.  The objects of the libraries the package
    builds on ([json], [requests], [singer_sdk]) are represented as far as the
    package uses them; each such definition says which library call it
    stands for. *)

From stdpp Require Import gmap strings list fin_maps sorting.
From Stdlib Require Import ZArith Lia Ascii String.

#[local] Set Warnings "-register-all".
#[local] Open Scope string_scope.
#[local] Open Scope list_scope.
#[local] Open Scope Z_scope.

(** ** Python values and exceptions *)

Module Py.

(** A value as [response.json()] returns it ([None], [bool], [int],
    [float], [str], [list], [dict]).  A float is carried by its literal:
    the connector never computes with one.  [JNull] is Python's [None]. *)
Inductive json : Type :=
| JNull
| JBool (b : bool)
| JInt (z : Z)
| JFloat (lit : string)
| JStr (s : string)
| JArr (l : list json)
| JObj (m : gmap string json).

(** The exceptions the modelled code can raise. *)
Inductive exn : Type :=
| KeyError (key : string)
| TypeError
| HTTPError (status_code : Z)
| JSONDecodeError
| AttributeError
| NotImplementedError
| ConnectionError.

(** [obj[key]] for a string key: a dict is looked up, anything else does
    not support the subscript. *)
Definition getitem (obj : json) (key : string) : exn + json :=
  match obj with
  | JObj m => match m !! key with
              | Some v => inr v
              | None => inl (KeyError key)
              end
  | _ => inl TypeError
  end.

(** State-and-exception monad: a computation over a mutable store [S]
    returns or raises, and in both cases leaves a store behind. *)
Definition M (S A : Type) : Type := S -> (exn + A) * S.

Definition ret {S A} (a : A) : M S A := fun s => (inr a, s).
Definition raise {S A} (e : exn) : M S A := fun s => (inl e, s).
Definition bind {S A B} (m : M S A) (k : A -> M S B) : M S B :=
  fun s => match m s with
           | (inr a, s') => k a s'
           | (inl e, s') => (inl e, s')
           end.
Definition gets {S A} (f : S -> A) : M S A := fun s => (inr (f s), s).
Definition modify {S} (f : S -> S) : M S unit := fun s => (inr tt, f s).
Definition lift {S A} (r : exn + A) : M S A := fun s => (r, s).

(** [for x in xs: body x] *)
Fixpoint for_each {S A} (xs : list A) (body : A -> M S unit) : M S unit :=
  match xs with
  | [] => ret tt
  | x :: xs' => bind (body x) (fun _ => for_each xs' body)
  end.

(** An insertion-ordered [dict]: [d[k] = v] replaces the value in place
    when [k] is present and appends otherwise. *)
Fixpoint dict_set {K V} `{EqDecision K} (d : list (K * V)) (k : K) (v : V)
  : list (K * V) :=
  match d with
  | [] => [(k, v)]
  | (k', v') :: d' =>
      if decide (k' = k) then (k, v) :: d' else (k', v') :: dict_set d' k v
  end.

Fixpoint dict_get {K V} `{EqDecision K} (d : list (K * V)) (k : K)
  : option V :=
  match d with
  | [] => None
  | (k', v') :: d' => if decide (k' = k) then Some v' else dict_get d' k
  end.

Definition dict_keys {K V} (d : list (K * V)) : list K := d.*1.
Definition dict_values {K V} (d : list (K * V)) : list V := d.*2.

End Py.

Declare Scope py_scope.
Delimit Scope py_scope with py.
Notation "x <- m ;; k" := (Py.bind m (fun x => k))
  (at level 100, m at next level, right associativity) : py_scope.
Notation "m ;;; k" := (Py.bind m (fun _ => k))
  (at level 100, right associativity) : py_scope.

(** ** [tap_todoist/catalog.py] *)

Module catalog.

(** The [singer_sdk.typing] helpers the table is written with. *)
Inductive JSONTypeHelper : Type :=
| StringType
| IntegerType
| BooleanType
| DateTimeType
| ArrayType (wrapped : JSONTypeHelper)
| ObjectType (properties : list Property)
             (additional_properties : option JSONTypeHelper)
with Property : Type :=
| mkProperty (name : string) (wrapped : JSONTypeHelper) (required : bool)
             (description : option string) (allowed_values : list string).

Definition name (p : Property) : string :=
  match p with mkProperty n _ _ _ _ => n end.
Definition wrapped (p : Property) : JSONTypeHelper :=
  match p with mkProperty _ w _ _ _ => w end.
Definition required (p : Property) : bool :=
  match p with mkProperty _ _ r _ _ => r end.

(** [class PropertiesList(th.PropertiesList)]: the listed properties. *)
Definition PropertiesList : Type := list Property.

(** [self.to_dict()], the JSON-schema document of a property list, and
    [Schema.from_dict]: both are the SDK's and are kept symbolic. *)
Inductive SchemaDict : Type := to_dict (p : PropertiesList).
Inductive Schema : Type := from_dict (d : SchemaDict).

(** [def to_schema(self)] *)
Definition to_schema (p : PropertiesList) : Schema := from_dict (to_dict p).

(** [th.Property(name, type)] and its keyword forms. *)
Definition P (n : string) (t : JSONTypeHelper) : Property :=
  mkProperty n t false None [].
Definition Pv (n : string) (t : JSONTypeHelper) (vs : list string)
  : Property := mkProperty n t false None vs.
Definition Pd (n : string) (t : JSONTypeHelper) (d : string) : Property :=
  mkProperty n t false (Some d) [].
Definition Prd (n : string) (t : JSONTypeHelper) (d : string) : Property :=
  mkProperty n t true (Some d) [].
Definition Pdv (n : string) (t : JSONTypeHelper) (d : string)
  (vs : list string) : Property := mkProperty n t false (Some d) vs.

Definition projects : PropertiesList :=
  [ P "id" StringType;
    P "name" StringType;
    P "color" StringType;
    P "parent_id" StringType;
    P "child_order" IntegerType;
    P "collapsed" BooleanType;
    P "shared" BooleanType;
    P "is_deleted" BooleanType;
    P "is_archived" BooleanType;
    P "is_favorite" BooleanType;
    P "inbox_project" BooleanType;
    P "team_inbox" BooleanType;
    Pv "view_style" StringType ["list"; "board"] ].

Definition items : PropertiesList :=
  [ P "id" StringType;
    P "user_id" StringType;
    P "project_id" StringType;
    P "content" StringType;
    P "description" StringType;
    P "due"
      (ObjectType
         [ P "date" StringType;
           P "is_recurring" BooleanType;
           P "string" StringType;
           P "timezone" StringType;
           P "lang" StringType ] None);
    P "priority" IntegerType;
    P "parent_id" StringType;
    P "child_order" IntegerType;
    P "section_id" StringType;
    P "day_order" IntegerType;
    P "collapsed" IntegerType;
    P "labels" (ArrayType StringType);
    P "added_by_uid" StringType;
    P "assigned_by_uid" StringType;
    P "responsible_uid" StringType;
    P "checked" IntegerType;
    P "is_deleted" BooleanType;
    P "completed_at" StringType;
    P "added_at" StringType ].

Definition sections : PropertiesList :=
  [ P "id" StringType;
    P "name" StringType;
    P "project_id" StringType;
    P "section_order" IntegerType;
    P "collapsed" IntegerType;
    P "is_deleted" BooleanType;
    P "is_archived" BooleanType;
    P "archived_at" StringType;
    P "added_at" StringType ].

Definition labels : PropertiesList :=
  [ P "id" StringType;
    P "name" StringType;
    P "color" StringType;
    P "item_order" IntegerType;
    P "is_deleted" BooleanType;
    P "is_favorite" BooleanType ].

Definition notes : PropertiesList :=
  [ Prd "id" StringType "The ID of the note.";
    Pd "posted_uid" StringType "The ID of the user that posted the note.";
    Pd "item_id" StringType "The item which the is part of.";
    Pd "content" StringType "The content of the note.";
    Pd "file_attachment"
      (ObjectType
         [ Pd "file_name" StringType "The name of the file.";
           Pd "file_size" IntegerType "The size of the file in bytes.";
           Pd "file_type" StringType
             "MIME type (for example `text/plain` or `image/png`).";
           Pd "file_url" StringType "The URL where the file is located.";
           Pd "upload_state" StringType
             "Upload completion state (for example `pending` or `completed`)."
         ] None)
      "A file attached to the note.";
    Pd "is_deleted" BooleanType "Whether the note is marked as deleted.";
    Pd "posted_at" DateTimeType
      "The date and time when the note was posted.";
    Pd "reactions"
      (ObjectType [] (Some (ArrayType (ArrayType StringType))))
      "List of emoji reactions and corresponding user IDs." ].

Definition filters : PropertiesList :=
  [ Prd "id" StringType "The ID of the filter.";
    Pd "name" StringType "The name of the filter.";
    Pd "query" StringType "The query to search for.";
    Pdv "color" StringType "The color of the filter icon."
      [ "berry_red"; "red"; "orange"; "yellow"; "olive_green";
        "lime_green"; "green"; "mint_green"; "teal"; "sky_blue";
        "light_blue"; "blue"; "grape"; "violet"; "lavender"; "magenta";
        "salmon"; "charcoal"; "grey"; "taupe" ];
    Pd "item_order" IntegerType "Filter's order in the filter list.";
    Pd "is_deleted" BooleanType "Whether the filter is marked as deleted.";
    Pd "is_favorite" BooleanType "Whether the filter is a favorite." ].

Definition reminders : PropertiesList :=
  [ Prd "id" StringType "The ID of the reminder.";
    Pd "notify_uid" StringType
      "The user ID which should be notified of the reminder.";
    Pd "item_id" StringType "The item ID which the reminder is about.";
    Pdv "type" StringType "The type of the reminder."
      [ "relative"; "absolute"; "location" ];
    Pd "nm_offset" IntegerType
      "The relative time in minutes before the reminder before the due date of the item, in which the reminder should be triggered.";
    Pd "loc_lat" StringType "The location latitude.";
    Pd "loc_long" StringType "The location longitude.";
    Pdv "loc_trigger" StringType "What should trigger the reminder."
      [ "on_enter"; "on_leave" ];
    Pd "radius" IntegerType
      "The radius of the location that is still considered to as part of the location.";
    Pd "is_deleted" IntegerType
      "Whether the reminder is marked as deleted." ].

(** [SCHEMAS = {...}]: a dict literal, iterated in the order written. *)
Definition SCHEMAS : list (string * PropertiesList) :=
  [ ("projects", projects);
    ("items", items);
    ("sections", sections);
    ("labels", labels);
    ("notes", notes);
    ("filters", filters);
    ("reminders", reminders) ].

(** [SCHEMAS[key]] *)
Definition schema_for (key : string) : Py.exn + PropertiesList :=
  match Py.dict_get SCHEMAS key with
  | Some p => inr p
  | None => inl (Py.KeyError key)
  end.

(** The field names of a property list. *)
Definition field_names (p : PropertiesList) : list string := map name p.

End catalog.

(** ** The [json] module, on lists of strings

    [get_data] serialises a list of stream names with [json.dumps]; the
    encoder below is CPython's for that shape (default separators,
    [ensure_ascii=True]).  [loads] is the matching decoder: it accepts a JSON
    array of strings and follows the standard scanner (whitespace, the
    escapes, strict mode).  A [\uXXXX] escape above 255 lies outside the
    string convention of this file and is refused. *)

Module Json.

Definition dquote : ascii := "034"%char.
Definition backslash : ascii := "\"%char.

Definition hex_digit (n : N) : ascii :=
  match n with
  | 0 => "0" | 1 => "1" | 2 => "2" | 3 => "3" | 4 => "4" | 5 => "5"
  | 6 => "6" | 7 => "7" | 8 => "8" | 9 => "9" | 10 => "a" | 11 => "b"
  | 12 => "c" | 13 => "d" | 14 => "e" | _ => "f"
  end%N%char.

(** [ESCAPE_DCT] and the [\u{0:04x}] fallback of
    [py_encode_basestring_ascii]. *)
Definition escape_char (c : ascii) : string :=
  let n := N_of_ascii c in
  if Ascii.eqb c backslash then "\\"
  else if Ascii.eqb c dquote then String backslash (String dquote "")
  else if N.eqb n 8 then "\b"
  else if N.eqb n 12 then "\f"
  else if N.eqb n 10 then "\n"
  else if N.eqb n 13 then "\r"
  else if N.eqb n 9 then "\t"
  else if N.leb 32 n && N.leb n 126 then String c ""
  else "\u00" +:+ String (hex_digit (n / 16)) (String (hex_digit (n mod 16)) "").

Fixpoint escape (s : string) : string :=
  match s with
  | EmptyString => ""
  | String c s' => escape_char c +:+ escape s'
  end.

Definition encode_basestring_ascii (s : string) : string :=
  String dquote (escape s +:+ String dquote "").

(** [', '.join(items)] *)
Fixpoint join_items (items : list string) : string :=
  match items with
  | [] => ""
  | [x] => x
  | x :: xs => x +:+ ", " +:+ join_items xs
  end.

(** [json.dumps(l)] for a list of strings [l]. *)
Definition dumps (l : list string) : string :=
  "[" +:+ join_items (map encode_basestring_ascii l) +:+ "]".

(** *** The decoder *)

Inductive state : Type :=
| SStart                                   (* before the opening bracket *)
| SOpen                                    (* after "[" *)
| SStr (buf : string)                      (* inside a string *)
| SEsc (buf : string)                      (* after a backslash *)
| SHex (buf : string) (k : nat) (v : N)    (* after \u and k hex digits *)
| SAfter                                   (* after a string *)
| SComma                                   (* after "," *)
| SEnd.                                    (* after the closing bracket *)

Definition is_ws (c : ascii) : bool :=
  let n := N_of_ascii c in
  N.eqb n 32 || N.eqb n 9 || N.eqb n 10 || N.eqb n 13.

Definition hex_value (c : ascii) : option N :=
  let n := N_of_ascii c in
  if N.leb 48 n && N.leb n 57 then Some (n - 48)%N
  else if N.leb 97 n && N.leb n 102 then Some (n - 87)%N
  else if N.leb 65 n && N.leb n 70 then Some (n - 55)%N
  else None.

Definition snoc (buf : string) (c : ascii) : string := buf +:+ String c "".

(** The character an escape letter stands for ([BACKSLASH] in
    [json.decoder]). *)
Definition unescape (c : ascii) : option ascii :=
  if Ascii.eqb c dquote then Some dquote
  else if Ascii.eqb c backslash then Some backslash
  else if Ascii.eqb c "/" then Some "/"%char
  else if Ascii.eqb c "b" then Some (ascii_of_N 8)
  else if Ascii.eqb c "f" then Some (ascii_of_N 12)
  else if Ascii.eqb c "n" then Some (ascii_of_N 10)
  else if Ascii.eqb c "r" then Some (ascii_of_N 13)
  else if Ascii.eqb c "t" then Some (ascii_of_N 9)
  else None.

Definition step (st : state) (acc : list string) (c : ascii)
  : option (state * list string) :=
  match st with
  | SStart =>
      if is_ws c then Some (SStart, acc)
      else if Ascii.eqb c "[" then Some (SOpen, acc)
      else None
  | SOpen =>
      if is_ws c then Some (SOpen, acc)
      else if Ascii.eqb c "]" then Some (SEnd, acc)
      else if Ascii.eqb c dquote then Some (SStr "", acc)
      else None
  | SStr buf =>
      if Ascii.eqb c dquote then Some (SAfter, acc ++ [buf])
      else if Ascii.eqb c backslash then Some (SEsc buf, acc)
      else if N.ltb (N_of_ascii c) 32 then None
      else Some (SStr (snoc buf c), acc)
  | SEsc buf =>
      if Ascii.eqb c "u" then Some (SHex buf 0 0%N, acc)
      else match unescape c with
           | Some d => Some (SStr (snoc buf d), acc)
           | None => None
           end
  | SHex buf k v =>
      match hex_value c with
      | Some d =>
          let v' := (v * 16 + d)%N in
          if Nat.eqb k 3 then
            if N.ltb v' 256 then Some (SStr (snoc buf (ascii_of_N v')), acc)
            else None
          else Some (SHex buf (S k) v', acc)
      | None => None
      end
  | SAfter =>
      if is_ws c then Some (SAfter, acc)
      else if Ascii.eqb c "," then Some (SComma, acc)
      else if Ascii.eqb c "]" then Some (SEnd, acc)
      else None
  | SComma =>
      if is_ws c then Some (SComma, acc)
      else if Ascii.eqb c dquote then Some (SStr "", acc)
      else None
  | SEnd =>
      if is_ws c then Some (SEnd, acc) else None
  end.

Fixpoint scan (st : state) (acc : list string) (s : string)
  : option (list string) :=
  match s with
  | EmptyString => match st with SEnd => Some acc | _ => None end
  | String c s' =>
      match step st acc c with
      | Some (st', acc') => scan st' acc' s'
      | None => None
      end
  end.

(** [json.loads(s)], when [s] is a JSON array of strings. *)
Definition loads (s : string) : option (list string) := scan SStart [] s.

End Json.

(** ** The [singer_sdk] catalog objects the package builds *)

Module singer.
Import Py catalog.

Inductive InclusionType : Type := AVAILABLE | AUTOMATIC | UNSUPPORTED.

(** [Metadata], with the stream-level fields of [StreamMetadata]. *)
Record Metadata : Type := mkMetadata {
  inclusion : option InclusionType;
  selected : option bool;
  selected_by_default : option bool;
  table_key_properties : option (list string);
  forced_replication_method : option string;
  valid_replication_keys : option (list string);
  schema_name : option string
}.

(** [Metadata()] *)
Definition Metadata_new : Metadata :=
  mkMetadata None None None None None None None.

Definition set_selected (b : bool) (m : Metadata) : Metadata :=
  mkMetadata (inclusion m) (Some b) (selected_by_default m)
    (table_key_properties m) (forced_replication_method m)
    (valid_replication_keys m) (schema_name m).

(** A breadcrumb is a tuple of strings; [()] names the stream itself. *)
Definition Breadcrumb : Type := list string.

(** [class MetadataMapping(Dict[Breadcrumb, AnyMetadata])] *)
Definition MetadataMapping : Type := list (Breadcrumb * Metadata).

(** [self[()]] *)
Definition root (m : MetadataMapping) : exn + Metadata :=
  match dict_get m [] with
  | Some md => inr md
  | None => inl (KeyError "()")
  end.

(** [REPLICATION_LOG_BASED] of [singer_sdk.streams.core] *)
Definition REPLICATION_LOG_BASED : string := "LOG_BASED".

(** [schema.get("properties", {})]: the property names of the document,
    each once, in the order first written. *)
Definition schema_properties (d : SchemaDict) : list string :=
  match d with
  | to_dict p =>
      dict_keys (fold_left (fun acc q => dict_set acc (name q) q) p [])
  end.

Definition mem (x : string) (l : option (list string)) : bool :=
  match l with
  | Some l' => bool_decide (x ∈ l')
  | None => false
  end.

(** [MetadataMapping.get_standard_metadata(schema=..., key_properties=...,
    valid_replication_keys=..., replication_method=...)].  A schema
    document built by [to_dict] is a non-empty dict, hence truthy. *)
Definition get_standard_metadata (schema : option SchemaDict)
  (replication_method : option string)
  (key_properties valid_replication_keys : option (list string))
  : MetadataMapping :=
  let root0 :=
    mkMetadata None None None key_properties replication_method
      valid_replication_keys None in
  match schema with
  | Some d =>
      let fields :=
        fold_left
          (fun mapping field_name =>
             let incl :=
               if mem field_name key_properties
                  || mem field_name valid_replication_keys
               then AUTOMATIC else AVAILABLE in
             dict_set mapping ["properties"; field_name]
               (mkMetadata (Some incl) None None None None None None))
          (schema_properties d) [] in
      dict_set fields []
        (mkMetadata (Some AVAILABLE) None None key_properties
           replication_method valid_replication_keys None)
  | None => dict_set [] [] root0
  end.

(** [MetadataMapping._breadcrumb_is_selected], on the breadcrumb written
    last component first; the parent of a breadcrumb drops its last two
    components. *)
Fixpoint breadcrumb_is_selected_rev (m : MetadataMapping)
  (rb : list string) : bool :=
  match m with
  | [] => true
  | _ :: _ =>
      let md_entry := default Metadata_new (dict_get m (rev rb)) in
      let parent_value :=
        match rb with
        | [] => None
        | _ :: rb1 =>
            match rb1 with
            | [] => Some (breadcrumb_is_selected_rev m rb1)
            | _ :: rb2 => Some (breadcrumb_is_selected_rev m rb2)
            end
        end in
      match parent_value with
      | Some false => false
      | _ =>
          match inclusion md_entry with
          | Some UNSUPPORTED => false
          | Some AUTOMATIC => true
          | _ =>
              match selected md_entry with
              | Some b => b
              | None =>
                  match selected_by_default md_entry with
                  | Some b => b
                  | None => default false parent_value
                  end
              end
          end
      end
  end.

Definition _breadcrumb_is_selected (m : MetadataMapping) (b : Breadcrumb)
  : bool := breadcrumb_is_selected_rev m (rev b).

(** [class SelectionMask(Dict[Breadcrumb, bool])] *)
Definition SelectionMask : Type := list (Breadcrumb * bool).

(** [MetadataMapping.resolve_selection] *)
Definition resolve_selection (m : MetadataMapping) : SelectionMask :=
  fold_left (fun mask b => dict_set mask b (_breadcrumb_is_selected m b))
    (dict_keys m) [].

(** [mask[()]]: [SelectionMask.__missing__] answers [True] for a
    breadcrumb of fewer than two components. *)
Definition mask_root (mask : SelectionMask) : bool :=
  default true (dict_get mask []).

(** [CatalogEntry]: the fields the package passes; [replication_method]
    keeps its dataclass default [None]. *)
Record CatalogEntry : Type := mkCatalogEntry {
  tap_stream_id : string;
  metadata : MetadataMapping;
  schema : Schema;
  key_properties : option (list string);
  replication_method : option string
}.

(** [class Catalog(Dict[str, CatalogEntry])] *)
Definition Catalog : Type := list (string * CatalogEntry).

(** [Catalog.streams]: [list(self.values())] *)
Definition streams (c : Catalog) : list CatalogEntry := dict_values c.

End singer.

(** ** The [requests] objects the package touches *)

Module requests.
Import Py.

Definition lower_char (c : ascii) : ascii :=
  let n := N_of_ascii c in
  if N.leb 65 n && N.leb n 90 then ascii_of_N (n + 32) else c.

(** [key.lower()], on ASCII letters. *)
Fixpoint lower (s : string) : string :=
  match s with
  | EmptyString => EmptyString
  | String c s' => String (lower_char c) (lower s')
  end.

(** [CaseInsensitiveDict]: [_store] maps [key.lower()] to the pair of the
    key as last written and its value. *)
Definition CaseInsensitiveDict : Type := gmap string (string * string).

(** [d[key] = value] *)
Definition setitem (d : CaseInsensitiveDict) (key value : string)
  : CaseInsensitiveDict := <[lower key := (key, value)]> d.

(** [d.get(key)] *)
Definition get (d : CaseInsensitiveDict) (key : string) : option string :=
  snd <$> d !! lower key.

(** [CaseInsensitiveDict(headers)] from a plain dict. *)
Definition of_dict (headers : list (string * string)) : CaseInsensitiveDict :=
  fold_left (fun d kv => setitem d kv.1 kv.2) headers ∅.

(** [PreparedRequest]; the form fields of [data] are kept as given rather
    than url-encoded into a body string. *)
Record PreparedRequest : Type := mkPreparedRequest {
  method : string;
  url : string;
  headers : CaseInsensitiveDict;
  params : list (string * string);
  body : list (string * string)
}.

(** [RequestsAuth] of [tap_todoist/types.py] *)
Definition RequestsAuth : Type := PreparedRequest -> PreparedRequest.

(** [Response]: the status code and what [response.json()] gives, [None]
    when the body is not JSON. *)
Record Response : Type := mkResponse {
  status_code : Z;
  json_body : option json
}.

(** [Response.raise_for_status] *)
Definition raise_for_status (r : Response) : exn + unit :=
  if (400 <=? status_code r) && (status_code r <? 500)
  then inl (HTTPError (status_code r))
  else if (500 <=? status_code r) && (status_code r <? 600)
  then inl (HTTPError (status_code r))
  else inr tt.

(** [Response.json] *)
Definition json_of (r : Response) : exn + json :=
  match json_body r with
  | Some j => inr j
  | None => inl JSONDecodeError
  end.

(** [requests.Session]: only [auth] is ever assigned. *)
Record Session : Type := mkSession { auth : option RequestsAuth }.

(** What [Session.request] puts on the wire: the request built from the
    arguments, passed through the session's [auth] when one is set. *)
Definition prepare_request (s : Session) (method url : string)
  (headers params data : option (list (string * string)))
  : PreparedRequest :=
  let r := mkPreparedRequest method url (of_dict (default [] headers))
             (default [] params) (default [] data) in
  match auth s with
  | Some a => a r
  | None => r
  end.

(** The remote end: the answer to a request, or a transport failure. *)
Definition Server : Type := PreparedRequest -> exn + Response.

End requests.

(** ** [tap_todoist/types.py] and [tap_todoist/base_connector.py] *)

Module base_connector.
Import Py singer requests.
#[local] Open Scope py_scope.

(** [ConfigDict] and [StateDict].  The configuration schema of the tap
    declares string settings only, so a configuration maps names to
    strings. *)
Definition ConfigDict : Type := gmap string string.
Definition StateDict : Type := gmap string json.

(** The attributes [HTTPConnector.__init__] sets, and the session that
    the cached [requests_session] property hands out. *)
Record HTTPConnector : Type := mkHTTPConnector {
  config : option ConfigDict;
  catalog : Catalog;
  requests_session : Session
}.

(** [HTTPConnector.__init__] *)
Definition __init__ : HTTPConnector :=
  mkHTTPConnector None [] (mkSession None).

(** What an observer of a run can see happen, in order. *)
Inductive Event : Type :=
| EvDiscover
| EvRequest (r : PreparedRequest)
| EvRead (stream : string).

(** The store of a run: the connector object and the events so far. *)
Record World (Self : Type) : Type := mkWorld {
  self : Self;
  log : list Event
}.
Arguments mkWorld {Self} _ _.
Arguments self {Self} _.
Arguments log {Self} _.

(** The hooks a connector class may override, and the access of a
    subclass instance to the attributes of its base. *)
Class Connector (Self : Type) : Type := {
  super : Self -> HTTPConnector;
  with_super : HTTPConnector -> Self -> Self;
  get_headers :
    Self -> option ConfigDict -> option Catalog -> option StateDict ->
    exn + list (string * string);
  get_query_params :
    Self -> option ConfigDict -> option Catalog -> option StateDict ->
    exn + list (string * string);
  get_data :
    Self -> option ConfigDict -> option Catalog -> option StateDict ->
    exn + list (string * string);
  get_auth :
    Self -> option ConfigDict -> option Catalog -> option StateDict ->
    exn + option RequestsAuth;
  discover_catalog_entries :
    Self -> option ConfigDict -> exn + list CatalogEntry
}.

(** The defaults of [HTTPConnector] itself. *)
#[export] Instance HTTPConnector_hooks : Connector HTTPConnector := {
  super := fun c => c;
  with_super := fun b _ => b;
  get_headers := fun _ _ _ _ => inr [];
  get_query_params := fun _ _ _ _ => inr [];
  get_data := fun _ _ _ _ => inr [];
  get_auth := fun _ _ _ _ => inr None;
  discover_catalog_entries := fun _ _ => inl NotImplementedError
}.

Section Methods.
Context {Self : Type} `{Connector Self}.

Definition emit (e : Event) : M (World Self) unit :=
  modify (fun w => mkWorld (self w) (log w ++ [e])).

Definition update_super (f : HTTPConnector -> HTTPConnector)
  : M (World Self) unit :=
  modify (fun w => mkWorld (with_super (f (super (self w))) (self w)) (log w)).

(** [def prepare_session(self, config, catalog, state)] *)
Definition prepare_session (config : option ConfigDict)
  (catalog : option Catalog) (state : option StateDict)
  : M (World Self) unit :=
  me <- gets self ;;
  a <- lift (get_auth me config catalog state) ;;
  update_super (fun b => mkHTTPConnector (base_connector.config b)
                           (base_connector.catalog b) (mkSession a)).

(** [def send_request(self, method, url, **kwargs)] *)
Definition send_request (server : Server) (method url : string)
  (headers params data : option (list (string * string)))
  : M (World Self) Response :=
  session <- gets (fun w => requests_session (super (self w))) ;;
  let r := prepare_request session method url headers params data in
  emit (EvRequest r) ;;;
  lift (server r).

(** [def discover(self, config)] *)
Definition discover (config : option ConfigDict)
  : M (World Self) Catalog :=
  emit EvDiscover ;;;
  me <- gets self ;;
  entries <- lift (discover_catalog_entries me None) ;;
  for_each entries
    (fun entry =>
       r <- lift (root (metadata entry)) ;;
       let entry' :=
         mkCatalogEntry (tap_stream_id entry)
           (dict_set (metadata entry) [] (set_selected true r))
           (schema entry) (key_properties entry)
           (replication_method entry) in
       update_super
         (fun b => mkHTTPConnector (base_connector.config b)
                     (dict_set (base_connector.catalog b)
                        (tap_stream_id entry') entry')
                     (requests_session b))) ;;;
  gets (fun w => base_connector.catalog (super (self w))).

(** [def prepare(self, config=None, catalog=None, state=None)] *)
Definition prepare (config : option ConfigDict)
  (catalog : option Catalog) (state : option StateDict)
  : M (World Self) unit :=
  prepare_session config catalog state.

End Methods.

End base_connector.

(** ** [tap_todoist/tap.py] *)

Module tap.
Import Py catalog singer requests base_connector.
#[local] Open Scope py_scope.

(** [class BearerAuth]: [__init__] stores the token. *)
Record BearerAuth : Type := mkBearerAuth { token : string }.

(** [BearerAuth.__call__] *)
Definition BearerAuth_call (a : BearerAuth) (request : PreparedRequest)
  : PreparedRequest :=
  mkPreparedRequest (method request) (url request)
    (setitem (headers request) "Authorization" ("Bearer " +:+ token a))
    (params request) (body request).

(** [class TodoistClient(HTTPConnector)] *)
Record TodoistClient : Type := mkTodoistClient {
  connector : HTTPConnector;
  _data : json
}.

(** [TodoistClient.__init__]: [_data] starts as [None]. *)
Definition TodoistClient_init : TodoistClient :=
  mkTodoistClient __init__ JNull.

(** [def get_auth(self, config, catalog, state)]; subscripting [None]
    is a [TypeError]. *)
Definition TodoistClient_get_auth (config : option ConfigDict)
  : exn + option RequestsAuth :=
  match config with
  | None => inl TypeError
  | Some c =>
      match c !! "token" with
      | Some t => inr (Some (BearerAuth_call (mkBearerAuth t)))
      | None => inl (KeyError "token")
      end
  end.

(** The names [get_data] collects in [selected_streams]. *)
Definition selected_streams (catalog : Catalog) : list string :=
  fold_left
    (fun acc entry =>
       let mask := resolve_selection (metadata entry) in
       if mask_root mask then acc ++ [tap_stream_id entry] else acc)
    (streams catalog) [].

(** [def get_data(self, config, catalog, state)] *)
Definition TodoistClient_get_data (catalog : option Catalog)
  : exn + list (string * string) :=
  match catalog with
  | None => inl AttributeError
  | Some c =>
      inr [ ("sync_token", "*");
            ("resource_types", Json.dumps (selected_streams c)) ]
  end.

(** [def discover_catalog_entries(self, config=None)] *)
Definition TodoistClient_discover_catalog_entries : list CatalogEntry :=
  map (fun key =>
         let props := default [] (dict_get SCHEMAS key) in
         mkCatalogEntry key
           (get_standard_metadata (Some (to_dict props))
              (Some REPLICATION_LOG_BASED) (Some ["id"]) None)
           (to_schema props)
           (Some ["id"])
           None)
      (dict_keys SCHEMAS).

#[export] Instance TodoistClient_hooks : Connector TodoistClient := {
  super := connector;
  with_super := fun b c => mkTodoistClient b (_data c);
  get_headers := fun _ _ _ _ => inr [];
  get_query_params := fun _ _ _ _ => inr [];
  get_data := fun _ _ catalog _ => TodoistClient_get_data catalog;
  get_auth := fun _ config _ _ => TodoistClient_get_auth config;
  discover_catalog_entries :=
    fun _ _ => inr TodoistClient_discover_catalog_entries
}.

(** The [data] property. *)
Definition data (c : TodoistClient) : json := _data c.

Definition set_data (j : json) : M (World TodoistClient) unit :=
  modify (fun w => mkWorld (mkTodoistClient (connector (self w)) j) (log w)).

(** [TodoistClient.prepare] *)
Definition prepare (server : Server) (config : option ConfigDict)
  (catalog : option Catalog) (state : option StateDict)
  : M (World TodoistClient) unit :=
  base_connector.prepare config catalog state ;;;
  me <- gets self ;;
  d <- lift (get_data me config catalog state) ;;
  response <- send_request server "POST"
                "https://api.todoist.com/sync/v9/sync"
                (Some [("Content-Type", "application/x-www-form-urlencoded")])
                None (Some d) ;;
  lift (raise_for_status response) ;;;
  j <- lift (json_of response) ;;
  set_data j ;;;
  d1 <- gets (fun w => _data (self w)) ;;
  lift (getitem d1 "full_sync") ;;;
  d2 <- gets (fun w => _data (self w)) ;;
  lift (getitem d2 "sync_token") ;;;
  ret tt.

(** [SyncStream.get_records]: the stream holds the shared connector, so
    it reads the connector of the run's store. *)
Definition get_records (name : string) : M (World TodoistClient) json :=
  emit (EvRead name) ;;;
  d <- gets (fun w => data (self w)) ;;
  lift (getitem d name).

(** [TapTodoist.config_jsonschema]: the settings the tap declares. *)
Definition config_jsonschema : PropertiesList :=
  [ mkProperty "token" StringType true
      (Some "API token for the todoist API") [] ].

(** [class TapTodoist(Tap)]: the [config], [catalog] and [state] the tap is
    built with; [catalog] is [None] when the operator passes none. *)
Record TapTodoist : Type := mkTapTodoist {
  tap_config : ConfigDict;
  tap_catalog : option Catalog;
  tap_state : StateDict
}.

(** [entry["schema"]] of the SDK's [catalog_dict]: the dict form of the
    entry's schema, kept symbolic. *)
Inductive SchemaJson : Type := Schema_to_dict (s : Schema).

(** [class SyncStream(Stream)]: [__init__] receives the schema and the
    name; the connector it keeps is the shared client of the store. *)
Record SyncStream : Type := mkSyncStream {
  stream_schema : SchemaJson;
  stream_name : string
}.

(** The [_singer_catalog] property: every access runs discovery. *)
Definition _singer_catalog (t : TapTodoist)
  : M (World TodoistClient) Catalog :=
  discover (Some (tap_config t)).

(** [self.catalog_dict["streams"]] of the SDK: the entries of
    [_singer_catalog], in order. *)
Definition catalog_dict_streams (t : TapTodoist)
  : M (World TodoistClient) (list CatalogEntry) :=
  c <- _singer_catalog t ;;
  ret (streams c).

(** [def discover_streams(self)] *)
Definition discover_streams (t : TapTodoist)
  : M (World TodoistClient) (list SyncStream) :=
  entries <- catalog_dict_streams t ;;
  ret (map (fun entry =>
              mkSyncStream (Schema_to_dict (schema entry))
                (tap_stream_id entry))
         entries).

(** The order of [sorted(streams, key=lambda x: x.name)]. *)
Definition name_le (a b : SyncStream) : Prop :=
  String.le (stream_name a) (stream_name b).

#[export] Instance name_le_dec : RelDecision name_le :=
  fun a b => decide (String.le (stream_name a) (stream_name b)).

(** [Tap.streams] of the SDK on a tap that has not built its streams yet:
    [load_streams] takes the streams of [discover_streams] ordered by name,
    and they are kept in a dict under their names. *)
Definition Tap_streams (t : TapTodoist)
  : M (World TodoistClient) (list SyncStream) :=
  discovered_streams <- discover_streams t ;;
  ret (dict_values
         (fold_left (fun d s => dict_set d (stream_name s) s)
            (merge_sort name_le discovered_streams) [])).

(** [Stream.selected] of the SDK.  Without an input catalog every stream is
    selected.  With one, the stream takes the metadata of its entry there
    and is selected as [resolve_selection] says at [()]; a stream the input
    catalog does not list, or any stream when that catalog is empty, gets
    fresh metadata in which nothing is selected. *)
Definition Stream_selected (t : TapTodoist) (s : SyncStream) : bool :=
  match tap_catalog t with
  | None => true
  | Some input_catalog =>
      match input_catalog, dict_get input_catalog (stream_name s) with
      | _ :: _, Some entry => mask_root (resolve_selection (metadata entry))
      | _, _ => false
      end
  end.

(** [Tap.sync_all] of the SDK, as far as it reaches this package: the
    streams are built, which goes through [discover_streams], and every
    selected stream is asked for its records; a deselected one is
    skipped. *)
Definition Tap_sync_all (t : TapTodoist) : M (World TodoistClient) unit :=
  tap_streams <- Tap_streams t ;;
  for_each tap_streams
    (fun stream =>
       if Stream_selected t stream
       then get_records (stream_name stream) ;;; ret tt
       else ret tt).

(** [def sync_all(self)].  [self.catalog] is the input catalog when one
    was given and is not empty, and the catalog of the client otherwise;
    [a or b] takes [b] when the dict [a] is empty. *)
Definition sync_all (server : Server) (t : TapTodoist)
  : M (World TodoistClient) unit :=
  discover (Some (tap_config t)) ;;;
  client_catalog <- gets (fun w => base_connector.catalog (connector (self w))) ;;
  let catalog :=
    match tap_catalog t with
    | Some (entry :: input_catalog) => entry :: input_catalog
    | _ => client_catalog
    end in
  prepare server (Some (tap_config t)) (Some catalog) (Some (tap_state t)) ;;;
  Tap_sync_all t.

(** A fresh run: a new client and nothing observed yet. *)
Definition fresh : World TodoistClient := mkWorld TodoistClient_init [].

End tap.

(** ** Vocabulary of the statements *)

Module spec.
Import Py catalog singer requests base_connector tap.

(** Whether [get_data] counts an entry as selected. *)
Definition is_selected (e : CatalogEntry) : bool :=
  mask_root (resolve_selection (metadata e)).

(** The names of the selected streams of a catalog, in catalog order. *)
Definition selected_names (c : Catalog) : list string :=
  map tap_stream_id (List.filter is_selected (streams c)).

(** An entry after the loop body of [discover] has marked it. *)
Definition mark_selected (e : CatalogEntry) : CatalogEntry :=
  match root (metadata e) with
  | inr r =>
      mkCatalogEntry (tap_stream_id e)
        (dict_set (metadata e) [] (set_selected true r))
        (schema e) (key_properties e) (replication_method e)
  | inl _ => e
  end.

(** An entry as an operator's catalog deselects it. *)
Definition deselect (e : CatalogEntry) : CatalogEntry :=
  match root (metadata e) with
  | inr r =>
      mkCatalogEntry (tap_stream_id e)
        (dict_set (metadata e) [] (set_selected false r))
        (schema e) (key_properties e) (replication_method e)
  | inl _ => e
  end.

(** An entry whose metadata has the stream-level record [()]. *)
Definition has_root (e : CatalogEntry) : Prop :=
  exists r, root (metadata e) = inr r.

(** [catalog[e.tap_stream_id] = e] for every [e] of [es], in order. *)
Definition register (c : Catalog) (es : list CatalogEntry) : Catalog :=
  fold_left (fun c e => dict_set c (tap_stream_id e) e) es c.

(** The entries [discover] stores for the Todoist client. *)
Definition discovered : list CatalogEntry :=
  map mark_selected TodoistClient_discover_catalog_entries.

(** The last entry of [es] registered under [k]. *)
Fixpoint last_with (k : string) (es : list CatalogEntry)
  : option CatalogEntry :=
  match es with
  | [] => None
  | e :: es' =>
      match last_with k es' with
      | Some e' => Some e'
      | None => if decide (tap_stream_id e = k) then Some e else None
      end
  end.

(** The store with the catalog of its connector replaced. *)
Definition with_catalog (c : Catalog) (w : World TodoistClient)
  : World TodoistClient :=
  mkWorld
    (mkTodoistClient
       (mkHTTPConnector (config (connector (self w))) c
          (requests_session (connector (self w))))
       (_data (self w)))
    (log w).

Definition client_catalog (w : World TodoistClient) : Catalog :=
  base_connector.catalog (connector (self w)).

(** The store after [requests_session.auth = a]. *)
Definition with_auth (a : option RequestsAuth) (w : World TodoistClient)
  : World TodoistClient :=
  mkWorld
    (mkTodoistClient
       (mkHTTPConnector (config (connector (self w)))
          (base_connector.catalog (connector (self w))) (mkSession a))
       (_data (self w)))
    (log w).

(** The store after one more event. *)
Definition with_event (e : Event) (w : World TodoistClient)
  : World TodoistClient := mkWorld (self w) (log w ++ [e]).

(** The store after [self._data = j]. *)
Definition with_data (j : json) (w : World TodoistClient)
  : World TodoistClient :=
  mkWorld (mkTodoistClient (connector (self w)) j) (log w).

(** The request [prepare] sends once [auth] is installed. *)
Definition sync_request (a : option RequestsAuth)
  (d : list (string * string)) : PreparedRequest :=
  prepare_request (mkSession a) "POST"
    "https://api.todoist.com/sync/v9/sync"
    (Some [("Content-Type", "application/x-www-form-urlencoded")])
    None (Some d).

(** The answer of the remote end to the request [prepare] builds from a
    configuration and a catalog; [None] when no request gets built. *)
Definition sync_response (server : Server) (cfg : option ConfigDict)
  (cat : option Catalog) : option (exn + Response) :=
  match TodoistClient_get_auth cfg, TodoistClient_get_data cat with
  | inr a, inr d => Some (server (sync_request a d))
  | _, _ => None
  end.

(** The store [sync_all] hands to [prepare], and the outcome of that
    call. *)
Definition discovery_stage (t : TapTodoist) (w : World TodoistClient)
  : (exn + Catalog) * World TodoistClient :=
  discover (Some (tap_config t)) w.

Definition fetch_stage (server : Server) (t : TapTodoist)
  (w : World TodoistClient) : (exn + unit) * World TodoistClient :=
  let w1 := (discovery_stage t w).2 in
  let catalog :=
    match tap_catalog t with
    | Some (entry :: input_catalog) => entry :: input_catalog
    | _ => client_catalog w1
    end in
  prepare server (Some (tap_config t)) (Some catalog) (Some (tap_state t)) w1.

(** A catalog in which only the named streams stay selected. *)
Definition select_only (names : list string) (c : Catalog) : Catalog :=
  map (fun kv => if bool_decide (kv.1 ∈ names) then kv
                 else (kv.1, deselect kv.2)) c.

(** A document holds a key when it is a dict with that key. *)
Definition has_key (doc : json) (key : string) : bool :=
  match doc with
  | JObj m => bool_decide (is_Some (m !! key))
  | _ => false
  end.

Definition is_request (e : Event) : bool :=
  match e with EvRequest _ => true | _ => false end.
Definition is_read (e : Event) : bool :=
  match e with EvRead _ => true | _ => false end.

(** The run's state machine as the specification draws it. *)
Inductive Phase : Type := Uninitialized | Discovered | Fetched | Emitting.

Definition phase_step (p : Phase) (e : Event) : option Phase :=
  match p, e with
  | Uninitialized, EvDiscover => Some Discovered
  | Discovered, EvRequest _ => Some Fetched
  | Fetched, EvRead _ => Some Emitting
  | Emitting, EvRead _ => Some Emitting
  | _, _ => None
  end.

Fixpoint phases (p : Phase) (evs : list Event) : option Phase :=
  match evs with
  | [] => Some p
  | e :: evs' =>
      match phase_step p e with
      | Some p' => phases p' evs'
      | None => None
      end
  end.

(** The phases a run of the code goes through: as above, with the second
    discovery that building the streams brings after the fetch. *)
Inductive RunPhase : Type :=
| Started | FirstDiscovered | FetchedOnce | StreamsBuilt | Reading.

Definition run_step (p : RunPhase) (e : Event) : option RunPhase :=
  match p, e with
  | Started, EvDiscover => Some FirstDiscovered
  | FirstDiscovered, EvRequest _ => Some FetchedOnce
  | FetchedOnce, EvDiscover => Some StreamsBuilt
  | StreamsBuilt, EvRead _ => Some Reading
  | Reading, EvRead _ => Some Reading
  | _, _ => None
  end.

Fixpoint run_phases (p : RunPhase) (evs : list Event) : option RunPhase :=
  match evs with
  | [] => Some p
  | e :: evs' =>
      match run_step p e with
      | Some p' => run_phases p' evs'
      | None => None
      end
  end.

(** The events of [w'] that came after those of [w]. *)
Definition since (w w' : World TodoistClient) : list Event :=
  drop (List.length (log w)) (log w').

(** The mocked response of the specification's examples. *)
Definition sample_document : json :=
  JObj (<["projects" :=
            JArr [JObj (<["id" := JStr "1"]> (<["name" := JStr "A"]> ∅))]]>
          (<["sync_token" := JStr "abc"]>
             (<["full_sync" := JBool true]> ∅))).

Definition sample_config : ConfigDict := {["token" := "secret"]}.

Definition answer (status : Z) (body : option json) : Server :=
  fun _ => inr (mkResponse status body).

(** The auth object [get_auth] builds for a token. *)
Definition bearer (t : string) : option RequestsAuth :=
  Some (BearerAuth_call (mkBearerAuth t)).

(** The session of the client. *)
Definition client_session (w : World TodoistClient) : Session :=
  requests_session (connector (self w)).

(** Printable ASCII: the characters from the space to the tilde. *)
Definition printable_char (c : ascii) : bool :=
  N.leb 32 (N_of_ascii c) && N.leb (N_of_ascii c) 126.

Fixpoint printable (s : string) : bool :=
  match s with
  | EmptyString => true
  | String c s' => printable_char c && printable s'
  end.

(** A document with records but without the bookkeeping keys. *)
Definition bare_document : json :=
  JObj (<["projects" := JArr [JObj (<["id" := JStr "1"]> ∅)]]> ∅).

(** A remote end that cannot be reached. *)
Definition unreachable : Server := fun _ => inl ConnectionError.

(** The type a property list declares for a field: that of the last
    property of that name, as the dict of properties keeps it. *)
Fixpoint declared_type (p : PropertiesList) (field : string)
  : option JSONTypeHelper :=
  match p with
  | [] => None
  | q :: p' =>
      match declared_type p' field with
      | Some ty => Some ty
      | None => if decide (name q = field) then Some (wrapped q) else None
      end
  end.

(** A complete answer: an empty collection for each of the seven streams
    and the two bookkeeping keys. *)
Definition full_fields : gmap string json :=
  list_to_map
    (map (fun key => (key, JArr [])) (dict_keys SCHEMAS)
     ++ [("sync_token", JStr "abc"); ("full_sync", JBool true)]).

Definition full_document : json := JObj full_fields.




(** The fields of [sample_document]. *)
Definition sample_fields : gmap string json :=
  <["projects" :=
      JArr [JObj (<["id" := JStr "1"]> (<["name" := JStr "A"]> ∅))]]>
    (<["sync_token" := JStr "abc"]> (<["full_sync" := JBool true]> ∅)).

(** The request record of an event, if it is one. *)
Definition request_of (e : Event) : option PreparedRequest :=
  match e with EvRequest r => Some r | _ => None end.

End spec.

(** * Properties *)

(** ** [json.loads] inverts [json.dumps] *)

Section JsonRoundTrip.
Import Json.

Lemma append_cons (x : ascii) (a b : string) :
  String x a +:+ b = String x (a +:+ b).
Proof. reflexivity. Qed.

Lemma append_nil_l (b : string) : "" +:+ b = b.
Proof. reflexivity. Qed.

Lemma string_app_assoc (a b c : string) : (a +:+ b) +:+ c = a +:+ (b +:+ c).
Proof.
  induction a as [|x a IH]; [reflexivity|].
  rewrite !append_cons. by rewrite IH.
Qed.

Lemma string_app_nil_r (a : string) : a +:+ "" = a.
Proof.
  induction a as [|x a IH]; [reflexivity|].
  rewrite append_cons. by rewrite IH.
Qed.

Lemma scan_escape_char (c : ascii) (buf : string) (acc : list string)
  (rest : string) :
  scan (SStr buf) acc (escape_char c +:+ rest)
  = scan (SStr (snoc buf c)) acc rest.
Proof.
  destruct c as [[] [] [] [] [] [] [] []]; reflexivity.
Qed.

Lemma scan_escape (s : string) : forall buf acc rest,
  scan (SStr buf) acc (escape s +:+ rest) = scan (SStr (buf +:+ s)) acc rest.
Proof.
  induction s as [|c s IH]; intros buf acc rest.
  - change (escape "") with "". by rewrite append_nil_l, string_app_nil_r.
  - change (escape (String c s)) with (escape_char c +:+ escape s).
    rewrite string_app_assoc, scan_escape_char, IH.
    unfold snoc. by rewrite string_app_assoc.
Qed.

Lemma scan_string (s : string) (acc : list string) (rest : string) :
  scan (SStr "") acc (escape s +:+ String dquote rest)
  = scan SAfter (acc ++ [s]) rest.
Proof. rewrite scan_escape. reflexivity. Qed.

Lemma scan_encoded (st : state) (s : string) (acc : list string)
  (rest : string) :
  st = SOpen \/ st = SComma ->
  scan st acc (encode_basestring_ascii s +:+ rest)
  = scan SAfter (acc ++ [s]) rest.
Proof.
  intros Hst. unfold encode_basestring_ascii.
  rewrite append_cons, string_app_assoc, append_cons, append_nil_l.
  rewrite <- scan_string. by destruct Hst as [-> | ->].
Qed.

Lemma scan_items (xs : list string) : forall st x acc,
  st = SOpen \/ st = SComma ->
  scan st acc (join_items (map encode_basestring_ascii (x :: xs)) +:+ "]")
  = Some (acc ++ x :: xs).
Proof.
  induction xs as [|y ys IH]; intros st x acc Hst.
  - change (join_items (map encode_basestring_ascii [x]))
      with (encode_basestring_ascii x).
    by rewrite scan_encoded.
  - change (join_items (map encode_basestring_ascii (x :: y :: ys)))
      with (encode_basestring_ascii x +:+ ", "
            +:+ join_items (map encode_basestring_ascii (y :: ys))).
    rewrite string_app_assoc, scan_encoded by done.
    rewrite string_app_assoc.
    change (scan SComma (acc ++ [x])
              (join_items (map encode_basestring_ascii (y :: ys)) +:+ "]")
            = Some (acc ++ x :: y :: ys)).
    rewrite IH by auto. by rewrite <- app_assoc.
Qed.

Lemma loads_dumps (l : list string) : loads (dumps l) = Some l.
Proof.
  destruct l as [|x xs]; [reflexivity|].
  unfold loads, dumps.
  change (scan SOpen [] (join_items (map encode_basestring_ascii (x :: xs)) +:+ "]") = Some (x :: xs)).
  by rewrite scan_items by auto.
Qed.
End JsonRoundTrip.

(** ** Ordered dicts *)

Section Dict.
Import Py.
Context {K V : Type} `{EqDecision K}.
Implicit Types (d : list (K * V)) (k : K) (v : V).

Lemma dict_get_set d k v k' :
  dict_get (dict_set d k v) k'
  = if decide (k = k') then Some v else dict_get d k'.
Proof.
  induction d as [|[k0 v0] d IH]; cbn [dict_set dict_get].
  - reflexivity.
  - destruct (decide (k0 = k)) as [->|Hne]; cbn [dict_get].
    + by destruct (decide (k = k')).
    + rewrite IH. destruct (decide (k0 = k')) as [->|]; [|done].
      by destruct (decide (k = k')) as [->|].
Qed.

Lemma dict_set_id d k v : dict_get d k = Some v -> dict_set d k v = d.
Proof.
  induction d as [|[k0 v0] d IH]; cbn [dict_set dict_get]; [done|].
  destruct (decide (k0 = k)) as [->|Hne]; [congruence|].
  intros Hd. by rewrite IH.
Qed.

Lemma dict_keys_set_new d k v :
  dict_get d k = None -> dict_keys (dict_set d k v) = dict_keys d ++ [k].
Proof.
  unfold dict_keys.
  induction d as [|[k0 v0] d IH]; cbn [dict_set dict_get]; [done|].
  destruct (decide (k0 = k)) as [->|Hne]; [done|].
  intros Hd. cbn. by rewrite IH.
Qed.
End Dict.

(** ** Discovery *)

Section Discovery.
Import Py catalog singer requests base_connector tap spec.
Implicit Types (w : World TodoistClient) (c : Catalog).

Lemma mark_selected_eq (e : CatalogEntry) (r : Metadata) :
  root (metadata e) = inr r ->
  mark_selected e
  = mkCatalogEntry (tap_stream_id e)
      (dict_set (metadata e) [] (set_selected true r))
      (schema e) (key_properties e) (replication_method e).
Proof. unfold mark_selected. by intros ->. Qed.

Lemma discover_loop (es : list CatalogEntry) : forall w,
  Forall has_root es ->
  for_each es
    (fun entry =>
       Py.bind (lift (root (metadata entry)))
         (fun r =>
            let entry' :=
              mkCatalogEntry (tap_stream_id entry)
                (dict_set (metadata entry) [] (set_selected true r))
                (schema entry) (key_properties entry)
                (replication_method entry) in
            update_super
              (fun b => mkHTTPConnector (base_connector.config b)
                          (dict_set (base_connector.catalog b)
                             (tap_stream_id entry') entry')
                          (requests_session b)))) w
  = (inr tt, with_catalog (register (client_catalog w) (map mark_selected es)) w).
Proof.
  induction es as [|e es IH]; intros w Hes.
  - by destruct w as [[[? ? ?] ?] ?].
  - inversion Hes as [|? ? [r Hr] Hes']; subst.
    cbn [for_each]. unfold bind at 1.
    unfold bind at 1, lift at 1. rewrite Hr.
    cbn [update_super modify]. unfold update_super, modify.
    rewrite IH by done.
    f_equal. cbn [map]. rewrite (mark_selected_eq e r Hr).
    by destruct w as [[[? ? ?] ?] ?].
Qed.

Lemma discovered_have_roots :
  Forall has_root TodoistClient_discover_catalog_entries.
Proof. repeat constructor; eexists; vm_compute; reflexivity. Qed.

Lemma discover_eq (cfg : option ConfigDict) w :
  discover cfg w
  = (inr (register (client_catalog w) discovered),
     with_catalog (register (client_catalog w) discovered)
       (mkWorld (self w) (log w ++ [EvDiscover]))).
Proof.
  unfold discover.
  unfold bind at 1, emit at 1, modify.
  unfold bind at 1, gets at 1.
  unfold bind at 1, lift at 1. cbn [discover_catalog_entries TodoistClient_hooks].
  unfold bind at 1. 
  rewrite discover_loop by apply discovered_have_roots.
  reflexivity.
Qed.

Lemma dict_get_register (es : list CatalogEntry) : forall c k,
  dict_get (register c es) k
  = match last_with k es with
    | Some e => Some e
    | None => dict_get c k
    end.
Proof.
  induction es as [|e es IH]; intros c k; [reflexivity|].
  change (register c (e :: es))
    with (register (dict_set c (tap_stream_id e) e) es).
  rewrite IH, dict_get_set. cbn [last_with].
  destruct (last_with k es); [done|].
  by destruct (decide (tap_stream_id e = k)).
Qed.

Lemma register_id (es : list CatalogEntry) : forall c,
  Forall (fun e => dict_get c (tap_stream_id e) = Some e) es ->
  register c es = c.
Proof.
  induction es as [|e es IH]; intros c Hes; [reflexivity|].
  inversion Hes as [|? ? He Hes']; subst.
  change (register c (e :: es))
    with (register (dict_set c (tap_stream_id e) e) es).
  rewrite (dict_set_id _ _ _ He). by apply IH.
Qed.

Lemma discovered_last :
  Forall (fun e => last_with (tap_stream_id e) discovered = Some e)
    discovered.
Proof. repeat constructor. Qed.

Lemma register_discovered_idem c :
  register (register c discovered) discovered = register c discovered.
Proof.
  apply register_id. eapply Forall_impl; [apply discovered_last|].
  intros e He. cbv beta in *. by rewrite dict_get_register, He.
Qed.

Lemma register_discovered_fresh :
  dict_keys (register [] discovered) = dict_keys SCHEMAS.
Proof. reflexivity. Qed.

(** C6: for every entry of [SCHEMAS], [discover] stores a catalog entry
    under the entry's name whose stream identifier is that name, whose
    schema is the entry's schema, whose key field is [id], whose metadata
    carries the log-based replication marker and which is marked selected;
    a new client ends up with exactly one entry per registry entry. *)
Theorem discover_builds_catalog (cfg : option ConfigDict) w :
  exists cat w',
    discover cfg w = (inr cat, w')
    /\ client_catalog w' = cat
    /\ Forall
         (fun kp =>
            exists e r,
              dict_get cat kp.1 = Some e
              /\ tap_stream_id e = kp.1
              /\ schema e = from_dict (to_dict kp.2)
              /\ key_properties e = Some ["id"]
              /\ root (metadata e) = inr r
              /\ table_key_properties r = Some ["id"]
              /\ forced_replication_method r = Some REPLICATION_LOG_BASED
              /\ selected r = Some true
              /\ is_selected e = true)
         SCHEMAS
    /\ exists cat0 w0,
         discover cfg fresh = (inr cat0, w0)
         /\ dict_keys cat0 = dict_keys SCHEMAS.
Proof.
  rewrite !discover_eq. do 2 eexists. split; [reflexivity|].
  split; [by destruct w as [[[? ? ?] ?] ?]|]. split.
  - repeat constructor; cbn [fst snd]; rewrite dict_get_register;
      (do 2 eexists; split; [vm_compute; reflexivity|]);
      repeat split; vm_compute; reflexivity.
  - do 2 eexists. split; [reflexivity|]. reflexivity.
Qed.

(** C7: [discover] is idempotent: a second call in succession returns the
    catalog of the first, with the same stream names, schemas and key
    fields. *)
Theorem discover_idempotent (cfg : option ConfigDict) w :
  exists cat w1 w2,
    discover cfg w = (inr cat, w1)
    /\ discover cfg w1 = (inr cat, w2)
    /\ client_catalog w2 = client_catalog w1
    /\ map tap_stream_id (streams (client_catalog w2))
       = map tap_stream_id (streams (client_catalog w1))
    /\ map schema (streams (client_catalog w2))
       = map schema (streams (client_catalog w1))
    /\ map key_properties (streams (client_catalog w2))
       = map key_properties (streams (client_catalog w1)).
Proof.
  assert (Hc : forall c w0, client_catalog (with_catalog c w0) = c)
    by (by intros c [[[? ? ?] ?] ?]).
  set (cat := register (client_catalog w) discovered).
  set (w1 := with_catalog cat (mkWorld (self w) (log w ++ [EvDiscover]))).
  set (w2 := with_catalog cat (mkWorld (self w1) (log w1 ++ [EvDiscover]))).
  assert (H1 : client_catalog w1 = cat) by apply Hc.
  assert (H2 : client_catalog w2 = cat) by apply Hc.
  exists cat, w1, w2. split; [apply discover_eq|]. split.
  - rewrite discover_eq, H1. unfold cat at 1 2.
    by rewrite register_discovered_idem.
  - by rewrite H1, H2.
Qed.
End Discovery.

(** ** The fetch *)

Section Fetch.
Import Py catalog singer requests base_connector tap spec.
Implicit Types (w : World TodoistClient) (c : Catalog).

(** [prepare], path by path. *)
Lemma prepare_eq (server : Server) (cfg : option ConfigDict)
  (cat : option Catalog) (st : option StateDict) w :
  prepare server cfg cat st w
  = match TodoistClient_get_auth cfg with
    | inl e => (inl e, w)
    | inr a =>
        let w1 := with_auth a w in
        match TodoistClient_get_data cat with
        | inl e => (inl e, w1)
        | inr d =>
            let w2 := with_event (EvRequest (sync_request a d)) w1 in
            match server (sync_request a d) with
            | inl e => (inl e, w2)
            | inr response =>
                match raise_for_status response with
                | inl e => (inl e, w2)
                | inr _ =>
                    match json_of response with
                    | inl e => (inl e, w2)
                    | inr j =>
                        let w3 := with_data j w2 in
                        match getitem j "full_sync" with
                        | inl e => (inl e, w3)
                        | inr _ =>
                            match getitem j "sync_token" with
                            | inl e => (inl e, w3)
                            | inr _ => (inr tt, w3)
                            end
                        end
                    end
                end
            end
        end
    end.
Proof.
  destruct w as [[[cf ct ss] dt] lg].
  unfold prepare, base_connector.prepare, prepare_session, send_request,
    update_super, set_data, emit, bind, gets, lift, modify, ret,
    sync_request, with_event, with_auth, with_data.
  cbn [self log super with_super get_auth get_data TodoistClient_hooks
       connector _data config base_connector.catalog requests_session].
  destruct (TodoistClient_get_auth cfg) as [e|a]; [reflexivity|].
  destruct (TodoistClient_get_data cat) as [e|d]; [reflexivity|].
  cbn [self log connector _data config base_connector.catalog
       requests_session].
  destruct (server _) as [e|response]; [reflexivity|].
  destruct (raise_for_status response) as [e|[]]; [reflexivity|].
  destruct (json_of response) as [e|j]; [reflexivity|].
  cbn [self log connector _data].
  destruct (getitem j "full_sync") as [e|?]; [reflexivity|].
  destruct (getitem j "sync_token") as [e|?]; reflexivity.
Qed.
End Fetch.

(** ** Reading records *)

Section Records.
Import Py catalog singer requests base_connector tap spec.
Implicit Types (w : World TodoistClient) (c : Catalog).

Lemma get_records_eq (s : string) w :
  get_records s w = (getitem (_data (self w)) s, with_event (EvRead s) w).
Proof.
  unfold get_records, emit, bind, gets, lift, modify, data, with_event.
  cbn [self log]. by destruct (getitem _ _).
Qed.

Lemma getitem_has_key (doc : json) (s : string) :
  match getitem doc s with
  | inl e => (e = TypeError \/ e = KeyError s) /\ has_key doc s = false
  | inr v => has_key doc s = true
  end.
Proof.
  destruct doc; cbn [getitem has_key]; auto.
  destruct (m !! s) as [v|] eqn:Hm.
  - apply bool_decide_eq_true. by exists v.
  - split; [auto|]. apply bool_decide_eq_false. by intros [v Hv].
Qed.

(** C3: reading a stream fails exactly when the client holds no document
    (its [_data] is still [None], as before any fetch) or the stream name
    is absent from the stored document; the failure is the one of the
    subscript ([TypeError] on [None], [KeyError] on a missing name), and
    otherwise the read returns the stored value and nothing else.  A new
    client, also after discovery, is in the first case. *)
Theorem get_records_missing (s : string) w :
  ((exists e, (get_records s w).1 = inl e)
   <-> (_data (self w) = JNull \/ has_key (_data (self w)) s = false))
  /\ match (get_records s w).1 with
     | inl e => e = TypeError \/ e = KeyError s
     | inr v => getitem (_data (self w)) s = inr v
     end
  /\ (get_records s fresh).1 = inl TypeError
  /\ (get_records s (discover None fresh).2).1 = inl TypeError.
Proof.
  rewrite get_records_eq. cbn [fst].
  pose proof (getitem_has_key (_data (self w)) s) as H.
  split; [|split; [|split]].
  - destruct (getitem (_data (self w)) s) as [e|v].
    + split; [intros _; right; apply H | intros _; by exists e].
    + split; [intros [e He]; discriminate|].
      intros [Hn|Hk]; [|congruence].
      rewrite Hn in H. discriminate.
  - destruct (getitem (_data (self w)) s) as [e|v]; [apply H|done].
  - reflexivity.
  - rewrite discover_eq, get_records_eq. reflexivity.
Qed.

(** C2: after a successful fetch whose response document holds the key
    [s] with value [v], reading stream [s] returns exactly [v], in every
    later state of the same client. *)
Theorem get_records_passthrough (server : Server) (cfg : option ConfigDict)
  (cat : option Catalog) (st : option StateDict) w
  (response : Response) (doc v : json) (s : string) :
  (prepare server cfg cat st w).1 = inr tt ->
  sync_response server cfg cat = Some (inr response) ->
  json_body response = Some doc ->
  getitem doc s = inr v ->
  forall w'',
    self w'' = self (prepare server cfg cat st w).2 ->
    (get_records s w'').1 = inr v.
Proof.
  rewrite prepare_eq. unfold sync_response.
  destruct (TodoistClient_get_auth cfg) as [e|a]; [discriminate|].
  destruct (TodoistClient_get_data cat) as [e|d]; [discriminate|].
  cbv zeta. intros Hp Hs. injection Hs as Hs. rewrite Hs in Hp |- *.
  destruct (raise_for_status response) as [e|[]]; [discriminate|].
  unfold json_of in Hp |- *. intros Hb. rewrite Hb in Hp |- *.
  destruct (getitem doc "full_sync") as [e|?]; [discriminate|].
  destruct (getitem doc "sync_token") as [e|?]; [discriminate|].
  intros Hv w'' Hw.
  rewrite get_records_eq, Hw. cbn [fst snd with_data self _data]. done.
Qed.

Lemma get_records_passthrough_witness :
  (get_records "projects"
     (prepare (answer 200 (Some sample_document)) (Some sample_config)
        (Some []) None fresh).2).1
  = inr (JArr [JObj (<["id" := JStr "1"]> (<["name" := JStr "A"]> ∅))]).
Proof.
  apply (get_records_passthrough (answer 200 (Some sample_document))
           (Some sample_config) (Some []) None fresh
           (mkResponse 200 (Some sample_document)) sample_document
           (JArr [JObj (<["id" := JStr "1"]> (<["name" := JStr "A"]> ∅))])
           "projects").
  - vm_compute. reflexivity.
  - reflexivity.
  - reflexivity.
  - reflexivity.
  - reflexivity.
Defined.
End Records.

(** ** Failures of the fetch *)

Section Failures.
Import Py catalog singer requests base_connector tap spec.
Implicit Types (w : World TodoistClient) (c : Catalog).

Lemma raise_for_status_error (response : Response) :
  400 <= status_code response < 600 ->
  raise_for_status response = inl (HTTPError (status_code response)).
Proof.
  intros [Hlo Hhi]. unfold raise_for_status.
  destruct (status_code response <? 500) eqn:H5.
  - replace (400 <=? status_code response) with true by (symmetry; lia).
    reflexivity.
  - replace (400 <=? status_code response) with true by (symmetry; lia).
    replace (500 <=? status_code response) with true by (symmetry; lia).
    replace (status_code response <? 600) with true by (symmetry; lia).
    reflexivity.
Qed.

(** The stored document survives a failed status check, whatever it was. *)
Lemma prepare_http_error_keeps_data (server : Server)
  (cfg : option ConfigDict) (cat : option Catalog) (st : option StateDict)
  w (response : Response) :
  sync_response server cfg cat = Some (inr response) ->
  400 <= status_code response < 600 ->
  (prepare server cfg cat st w).1 = inl (HTTPError (status_code response))
  /\ _data (self (prepare server cfg cat st w).2) = _data (self w)
  /\ exists req, log (prepare server cfg cat st w).2 = log w ++ [EvRequest req].
Proof.
  rewrite prepare_eq. unfold sync_response.
  destruct (TodoistClient_get_auth cfg) as [e|a]; [discriminate|].
  destruct (TodoistClient_get_data cat) as [e|d]; [discriminate|].
  cbv zeta. intros Hs Hc. injection Hs as Hs. rewrite Hs.
  rewrite (raise_for_status_error _ Hc). cbn [fst snd].
  destruct w as [[[? ? ?] ?] ?]. cbn. eauto.
Qed.

(** C4, amended: when the sync POST is answered with a status from 400
    to 599, the fetch raises the HTTP error of that status; the stored
    data keeps its value from before the fetch, and when that was unset
    every later read fails. *)
Theorem prepare_http_error (server : Server) (cfg : option ConfigDict)
  (cat : option Catalog) (st : option StateDict) w (response : Response) :
  sync_response server cfg cat = Some (inr response) ->
  400 <= status_code response < 600 ->
  _data (self w) = JNull ->
  exists w',
    prepare server cfg cat st w = (inl (HTTPError (status_code response)), w')
    /\ _data (self w') = _data (self w)
    /\ forall (s : string) w'',
         self w'' = self w' -> exists e, (get_records s w'').1 = inl e.
Proof.
  intros Hs Hc Hd.
  destruct (prepare_http_error_keeps_data server cfg cat st w response Hs Hc)
    as (Hr & Hk & _).
  exists (prepare server cfg cat st w).2. split; [|split; [done|]].
  - rewrite <- Hr. by destruct (prepare server cfg cat st w).
  - intros s w'' Hw. rewrite get_records_eq, Hw, Hk, Hd. by exists TypeError.
Qed.

Lemma prepare_http_error_witness :
  exists w',
    prepare (answer 500 None) (Some sample_config) (Some []) None fresh
    = (inl (HTTPError 500), w')
    /\ _data (self w') = _data (self fresh)
    /\ forall (s : string) w'',
         self w'' = self w' -> exists e, (get_records s w'').1 = inl e.
Proof.
  apply (prepare_http_error (answer 500 None) (Some sample_config)
           (Some []) None fresh (mkResponse 500 None)).
  - reflexivity.
  - cbn [status_code]. lia.
  - reflexivity.
Defined.

(** C4 as stated does not hold: status 300 is outside 200..299, yet
    [raise_for_status] lets it pass and the fetch returns normally. *)
Lemma prepare_non_2xx_counterexample :
  ~ (forall (server : Server) (cfg : option ConfigDict)
       (cat : option Catalog) (st : option StateDict) w
       (response : Response),
       sync_response server cfg cat = Some (inr response) ->
       ~ (200 <= status_code response < 300) ->
       exists e w',
         prepare server cfg cat st w = (inl e, w')
         /\ _data (self w') = _data (self w)).
Proof.
  intros H.
  assert (Hok : (prepare (answer 300 (Some sample_document))
                   (Some sample_config) (Some []) None fresh).1 = inr tt)
    by (vm_compute; reflexivity).
  destruct (H (answer 300 (Some sample_document)) (Some sample_config)
              (Some []) None fresh (mkResponse 300 (Some sample_document)))
    as (e & w' & Hp & _).
  - reflexivity.
  - cbn [status_code]. lia.
  - rewrite Hp in Hok. discriminate Hok.
Qed.

(** C5: with a configuration that has no [token], building the auth
    fails with the [KeyError] of the missing key, and [prepare] raises it
    leaving the store as it was: no request was sent.  A whole run fails
    the same way without any request event.  The tap declares [token] as
    a required setting. *)
Theorem prepare_without_token (server : Server) (t : TapTodoist)
  (cat : option Catalog) (st : option StateDict) w :
  tap_config t !! "token" = None ->
  TodoistClient_get_auth (Some (tap_config t)) = inl (KeyError "token")
  /\ prepare server (Some (tap_config t)) cat st w
     = (inl (KeyError "token"), w)
  /\ (sync_all server t w).1 = inl (KeyError "token")
  /\ Forall (fun ev => is_request ev = false)
       (since w (sync_all server t w).2)
  /\ Exists (fun p => name p = "token" /\ required p = true)
       config_jsonschema.
Proof.
  intros Ht.
  assert (Ha : TodoistClient_get_auth (Some (tap_config t))
               = inl (KeyError "token"))
    by (unfold TodoistClient_get_auth; by rewrite Ht).
  split; [done|]. split; [by rewrite prepare_eq, Ha|].
  assert (Hs : sync_all server t w
               = (inl (KeyError "token"),
                  (discover (Some (tap_config t)) w).2)).
  { unfold sync_all. unfold bind at 1. rewrite discover_eq.
    unfold bind at 1, gets at 1. unfold bind at 1.
    rewrite prepare_eq, Ha. reflexivity. }
  rewrite Hs, discover_eq. cbn [fst snd]. split; [done|]. split.
  - unfold since.
    replace (log (with_catalog _ _)) with (log w ++ [EvDiscover])
      by (by destruct w as [[[? ? ?] ?] ?]).
    rewrite drop_app_length. by repeat constructor.
  - apply Exists_cons_hd. split; reflexivity.
Qed.

Lemma prepare_without_token_witness :
  TodoistClient_get_auth (Some (∅ : ConfigDict)) = inl (KeyError "token")
  /\ prepare (answer 200 (Some sample_document)) (Some ∅) (Some []) None fresh
     = (inl (KeyError "token"), fresh)
  /\ (sync_all (answer 200 (Some sample_document))
        (mkTapTodoist ∅ None ∅) fresh).1
     = inl (KeyError "token")
  /\ Forall (fun ev => is_request ev = false)
       (since fresh
          (sync_all (answer 200 (Some sample_document))
             (mkTapTodoist ∅ None ∅) fresh).2)
  /\ Exists (fun p => name p = "token" /\ required p = true)
       config_jsonschema.
Proof.
  apply (prepare_without_token (answer 200 (Some sample_document))
           (mkTapTodoist ∅ None ∅) (Some []) None fresh).
  reflexivity.
Defined.
End Failures.

(** ** The run *)

Section Run.
Import Py catalog singer requests base_connector tap spec.
Implicit Types (w : World TodoistClient) (c : Catalog).

Lemma since_app w w' (evs : list Event) :
  log w' = log w ++ evs -> since w w' = evs.
Proof. unfold since. intros ->. apply drop_app_length. Qed.

(** The loop of the SDK only reads: it logs the names it asks for. *)
Lemma read_loop_log (t : TapTodoist) (ss : list SyncStream) : forall w,
  exists names : list string,
    log (for_each ss
           (fun stream =>
              if Stream_selected t stream
              then Py.bind (get_records (stream_name stream))
                     (fun _ => ret tt)
              else ret tt) w).2
    = log w ++ map EvRead names.
Proof.
  induction ss as [|s ss IH]; intros w.
  - exists []. cbn. by rewrite app_nil_r.
  - cbn [for_each]. unfold bind at 1.
    destruct (Stream_selected t s).
    + unfold bind at 1. rewrite get_records_eq.
      destruct (getitem (_data (self w)) (stream_name s)) as [e|v].
      * exists [stream_name s]. reflexivity.
      * unfold ret at 1.
        destruct (IH (with_event (EvRead (stream_name s)) w)) as [names Hn].
        exists (stream_name s :: names). rewrite Hn.
        cbn [with_event log map]. by rewrite <- app_assoc.
    + unfold ret at 1. apply IH.
Qed.

(** Building the streams runs discovery once more and reads nothing. *)
Lemma Tap_sync_all_log (t : TapTodoist) w :
  exists names : list string,
    log (Tap_sync_all t w).2 = log w ++ EvDiscover :: map EvRead names.
Proof.
  unfold Tap_sync_all, Tap_streams, discover_streams, catalog_dict_streams,
    _singer_catalog.
  unfold bind at 1. unfold bind at 1. unfold bind at 1. unfold bind at 1.
  rewrite discover_eq. unfold ret at 1. unfold ret at 1. unfold ret at 1.
  match goal with
  | |- context [for_each ?ss ?f ?w1] =>
      destruct (read_loop_log t ss w1) as [names Hn]
  end.
  exists names. rewrite Hn.
  destruct w as [[[? ? ?] ?] ?]. cbn [with_catalog log].
  by rewrite <- app_assoc.
Qed.

Lemma run_phases_reads (l : list string) :
  run_phases Reading (map EvRead l) = Some Reading.
Proof. induction l; [reflexivity | done]. Qed.

Lemma run_phases_after_streams (l : list string) :
  run_phases StreamsBuilt (map EvRead l) = Some StreamsBuilt
  \/ run_phases StreamsBuilt (map EvRead l) = Some Reading.
Proof. destruct l; [by left | right; apply run_phases_reads]. Qed.

Lemma prepare_log (server : Server) (cfg : option ConfigDict)
  (cat : option Catalog) (st : option StateDict) w :
  match (prepare server cfg cat st w).1 with
  | inl _ =>
      log (prepare server cfg cat st w).2 = log w
      \/ exists req, log (prepare server cfg cat st w).2
                     = log w ++ [EvRequest req]
  | inr _ =>
      exists req, log (prepare server cfg cat st w).2
                  = log w ++ [EvRequest req]
  end.
Proof.
  rewrite prepare_eq.
  destruct (TodoistClient_get_auth cfg) as [e|a]; [by left|].
  destruct (TodoistClient_get_data cat) as [e|d]; [by left|].
  cbv zeta.
  destruct (server _) as [e|response]; [right; by eexists|].
  destruct (raise_for_status response) as [e|[]]; [right; by eexists|].
  destruct (json_of response) as [e|j]; [right; by eexists|].
  destruct (getitem j "full_sync") as [e|?]; [right; by eexists|].
  destruct (getitem j "sync_token") as [e|?]; [right; by eexists|].
  by eexists.
Qed.

Lemma sync_all_eq (server : Server) (t : TapTodoist) w :
  sync_all server t w
  = match (fetch_stage server t w).1 with
    | inl e => (inl e, (fetch_stage server t w).2)
    | inr _ => Tap_sync_all t (fetch_stage server t w).2
    end.
Proof.
  unfold sync_all, fetch_stage, discovery_stage.
  unfold bind at 1. rewrite discover_eq.
  unfold bind at 1, gets at 1. unfold bind at 1. cbn [snd].
  unfold client_catalog.
  match goal with
  | |- context [prepare ?a ?b ?c ?d ?x] => generalize (prepare a b c d x)
  end.
  intros [[e|[]] w2]; cbn [fst snd]; exact eq_refl.
Qed.

Lemma discovery_log (t : TapTodoist) w :
  (discovery_stage t w).1 = inr (client_catalog (discovery_stage t w).2)
  /\ log (discovery_stage t w).2 = log w ++ [EvDiscover].
Proof.
  unfold discovery_stage. rewrite discover_eq. cbn [fst snd].
  by destruct w as [[[? ? ?] ?] ?].
Qed.

(** C9, amended: a run starts with a discovery, which does not fail, then
    makes the one fetch, and reads records only after it.  When the fetch
    fails the run ends with that failure, having reached [FirstDiscovered]
    or [FetchedOnce]: nothing later runs.  Otherwise the events are the
    discovery, the one request, the second discovery that building the
    streams brings, and then reads only. *)
Theorem sync_all_phases (server : Server) (t : TapTodoist) w :
  (discovery_stage t w).1 = inr (client_catalog (discovery_stage t w).2)
  /\ match (fetch_stage server t w).1 with
     | inl e =>
         sync_all server t w = (inl e, (fetch_stage server t w).2)
         /\ (run_phases Started (since w (sync_all server t w).2)
             = Some FirstDiscovered
             \/ run_phases Started (since w (sync_all server t w).2)
                = Some FetchedOnce)
     | inr _ =>
         run_phases Started (since w (sync_all server t w).2)
         = Some StreamsBuilt
         \/ run_phases Started (since w (sync_all server t w).2)
            = Some Reading
     end.
Proof.
  destruct (discovery_log t w) as [Hd Hl]. split; [done|].
  rewrite sync_all_eq.
  pose proof (prepare_log server (Some (tap_config t))
                (Some match tap_catalog t with
                      | Some (entry :: input_catalog) =>
                          entry :: input_catalog
                      | _ => client_catalog (discovery_stage t w).2
                      end)
                (Some (tap_state t)) (discovery_stage t w).2) as Hp.
  change (prepare _ _ _ _ _) with (fetch_stage server t w) in Hp.
  destruct (fetch_stage server t w) as [[e|[]] w2]; cbn [fst snd] in *.
  - split; [done|]. rewrite Hl in Hp.
    destruct Hp as [Hp | [req Hp]].
    + left. by rewrite (since_app w w2 [EvDiscover]).
    + right. rewrite (since_app w w2 [EvDiscover; EvRequest req]); [done|].
      by rewrite Hp, <- app_assoc.
  - destruct Hp as [req Hp]. rewrite Hl in Hp.
    destruct (Tap_sync_all_log t w2) as [names Hn].
    rewrite (since_app w _ (EvDiscover :: EvRequest req :: EvDiscover
                            :: map EvRead names)).
    + apply run_phases_after_streams.
    + rewrite Hn, Hp, <- !app_assoc. reflexivity.
Qed.

(** C9 as stated does not hold: in a run whose fetch succeeds, building
    the streams runs discovery again after the request, so the events do
    not follow the single-pass phases. *)
Lemma sync_all_rediscovers_counterexample :
  (sync_all (answer 200 (Some full_document))
     (mkTapTodoist sample_config None ∅) fresh).1 = inr tt
  /\ phases Uninitialized
       (since fresh
          (sync_all (answer 200 (Some full_document))
             (mkTapTodoist sample_config None ∅) fresh).2) = None
  /\ map is_request
       (take 3
          (since fresh
             (sync_all (answer 200 (Some full_document))
                (mkTapTodoist sample_config None ∅) fresh).2))
     = [false; true; false]
  /\ nth_error
       (since fresh
          (sync_all (answer 200 (Some full_document))
             (mkTapTodoist sample_config None ∅) fresh).2) 2
     = Some EvDiscover.
Proof. vm_compute. repeat split. Qed.
End Run.

(** ** The request body *)

Section Body.
Import Py catalog singer requests base_connector tap spec.

Lemma selected_streams_eq (c : Catalog) :
  selected_streams c = selected_names c.
Proof.
  unfold selected_streams, selected_names.
  assert (forall es acc,
    fold_left
      (fun acc entry =>
         let mask := resolve_selection (metadata entry) in
         if mask_root mask then acc ++ [tap_stream_id entry] else acc)
      es acc
    = acc ++ map tap_stream_id (List.filter is_selected es)) as H.
  { induction es as [|e es IH]; intros acc; cbn [fold_left List.filter].
    - by rewrite app_nil_r.
    - rewrite IH. cbv zeta. fold (is_selected e).
      destruct (is_selected e); [|done].
      by rewrite <- app_assoc. }
  apply H.
Qed.

(** C1: for every catalog the request body is [sync_token = "*"] and a
    [resource_types] that JSON-decodes to the names of the selected streams
    of the catalog, those and no others; with only [projects] and [labels]
    selected it decodes to exactly [["projects"; "labels"]]. *)
Theorem get_data_body (me : TodoistClient) (cfg : option ConfigDict)
  (c : Catalog) (st : option StateDict) :
  (exists rt,
     get_data me cfg (Some c) st
     = inr [("sync_token", "*"); ("resource_types", rt)]
     /\ Json.loads rt = Some (selected_names c))
  /\ (forall n,
        n ∈ selected_names c
        <-> exists e, e ∈ streams c /\ is_selected e = true
                      /\ tap_stream_id e = n)
  /\ exists rt,
       get_data me cfg
         (Some (select_only ["projects"; "labels"] (register [] discovered)))
         st
       = inr [("sync_token", "*"); ("resource_types", rt)]
       /\ Json.loads rt = Some ["projects"; "labels"].
Proof.
  split; [|split].
  - eexists. split; [reflexivity|].
    by rewrite loads_dumps, selected_streams_eq.
  - intros n. unfold selected_names.
    rewrite list_elem_of_fmap. split.
    + intros (e & -> & He). exists e.
      apply list_elem_of_In, filter_In in He as [He Hs].
      by rewrite list_elem_of_In.
    + intros (e & He & Hs & <-). exists e. split; [done|].
      apply list_elem_of_In, filter_In. by rewrite <- list_elem_of_In.
  - eexists. split; [reflexivity|].
    rewrite loads_dumps. vm_compute. reflexivity.
Qed.
End Body.

(** ** The schema table and the auth attachment *)

Section Static.
Import Py catalog singer requests base_connector tap spec.

(** C8: the table declares the seven streams, and the schema of each has
    at least one field and a field named [id]. *)
Theorem schemas_have_id :
  dict_keys SCHEMAS
  = ["projects"; "items"; "sections"; "labels"; "notes"; "filters";
     "reminders"]
  /\ Forall
       (fun key =>
          exists p,
            schema_for key = inr p
            /\ (0 < List.length p)%nat
            /\ "id" ∈ field_names p)
       ["projects"; "items"; "sections"; "labels"; "notes"; "filters";
        "reminders"].
Proof.
  split; [reflexivity|].
  repeat constructor; eexists; (split; [reflexivity|]);
    (split; [cbn; lia | apply list_elem_of_here]).
Qed.

(** C10: the bearer attachment sets the [Authorization] header of the
    request to ["Bearer "] followed by the token and changes nothing else:
    the other headers, the method, the URL, the query parameters and the
    body are as before. *)
Theorem bearer_auth_frame (tok : string) (request : PreparedRequest) :
  let request' := BearerAuth_call (mkBearerAuth tok) request in
  get (headers request') "Authorization" = Some ("Bearer " +:+ tok)
  /\ delete (lower "Authorization") (headers request')
     = delete (lower "Authorization") (headers request)
  /\ method request' = method request
  /\ url request' = url request
  /\ params request' = params request
  /\ body request' = body request.
Proof.
  cbv zeta. unfold BearerAuth_call, get, setitem, CaseInsensitiveDict in *.
  cbn [headers method url params body token].
  split; [by rewrite lookup_insert_eq|].
  split; [apply delete_insert_eq | done].
Qed.

Lemma bearer_auth_other_headers (tok key : string)
  (request : PreparedRequest) :
  lower key <> lower "Authorization" ->
  get (headers (BearerAuth_call (mkBearerAuth tok) request)) key
  = get (headers request) key.
Proof.
  intros Hk. unfold BearerAuth_call, get, setitem, CaseInsensitiveDict in *.
  cbn [headers].
  by rewrite lookup_insert_ne.
Qed.
End Static.

(** ** More on the fetch *)

Section FetchMore.
Import Py catalog singer requests base_connector tap spec.
Implicit Types (w : World TodoistClient) (c : Catalog).

Lemma get_auth_token (cfg : ConfigDict) (t : string) :
  cfg !! "token" = Some t ->
  TodoistClient_get_auth (Some cfg) = inr (bearer t).
Proof. unfold TodoistClient_get_auth. by intros ->. Qed.

(** Once auth and body are built, [prepare] logs the one request. *)
Lemma prepare_log_request (server : Server) (cfg : option ConfigDict)
  (cat : option Catalog) (st : option StateDict) w
  (a : option RequestsAuth) (d : list (string * string)) :
  TodoistClient_get_auth cfg = inr a ->
  TodoistClient_get_data cat = inr d ->
  log (prepare server cfg cat st w).2
  = log w ++ [EvRequest (sync_request a d)]
  /\ client_session (prepare server cfg cat st w).2 = mkSession a
  /\ config (connector (self (prepare server cfg cat st w).2))
     = config (connector (self w))
  /\ client_catalog (prepare server cfg cat st w).2 = client_catalog w.
Proof.
  intros Ha Hd. rewrite prepare_eq, Ha, Hd. cbv zeta.
  destruct (server _) as [e|response]; [done|].
  destruct (raise_for_status response) as [e|[]]; [done|].
  destruct (json_of response) as [e|j]; [done|].
  destruct (getitem j "full_sync") as [e|?]; [done|].
  destruct (getitem j "sync_token") as [e|?]; done.
Qed.

Lemma sync_request_headers (t : string) (d : list (string * string))
  (k : string) :
  get (headers (sync_request (bearer t) d)) k
  = if decide (lower k = "authorization") then Some ("Bearer " +:+ t)
    else if decide (lower k = "content-type")
         then Some "application/x-www-form-urlencoded"
         else None.
Proof.
  unfold get.
  change (headers (sync_request (bearer t) d))
    with (<["authorization" := ("Authorization", "Bearer " +:+ t)]>
            (<["content-type" :=
                 ("Content-Type", "application/x-www-form-urlencoded")]>
               (∅ : gmap string (string * string)))).
  unfold CaseInsensitiveDict.
  destruct (decide (lower k = "authorization")) as [->|Hk1].
  - by rewrite lookup_insert_eq.
  - rewrite lookup_insert_ne by done.
    destruct (decide (lower k = "content-type")) as [->|Hk2].
    + by rewrite lookup_insert_eq.
    + by rewrite lookup_insert_ne, lookup_empty by done.
Qed.

(** X1: with a token in the configuration and a catalog, [prepare] sends
    exactly one request, whatever the answer: a POST to the sync endpoint
    whose body is the two fields of [get_data] and whose headers carry
    [Authorization: Bearer <token>] and the form content type. *)
Theorem prepare_sends_authorized_post (server : Server) (cfg : ConfigDict)
  (cat : Catalog) (st : option StateDict) w (t : string) :
  cfg !! "token" = Some t ->
  exists req,
    log (prepare server (Some cfg) (Some cat) st w).2
    = log w ++ [EvRequest req]
    /\ method req = "POST"
    /\ url req = "https://api.todoist.com/sync/v9/sync"
    /\ params req = []
    /\ body req = [ ("sync_token", "*");
                    ("resource_types", Json.dumps (selected_names cat)) ]
    /\ get (headers req) "Authorization" = Some ("Bearer " +:+ t)
    /\ get (headers req) "Content-Type"
       = Some "application/x-www-form-urlencoded".
Proof.
  intros Ht. eexists. split.
  - apply prepare_log_request; [by apply get_auth_token | reflexivity].
  - rewrite <- selected_streams_eq.
    repeat split; by rewrite sync_request_headers.
Qed.

Lemma prepare_sends_authorized_post_witness :
  exists req,
    log (prepare unreachable (Some sample_config) (Some []) None fresh).2
    = log fresh ++ [EvRequest req]
    /\ method req = "POST"
    /\ url req = "https://api.todoist.com/sync/v9/sync"
    /\ params req = []
    /\ body req = [ ("sync_token", "*");
                    ("resource_types", Json.dumps (selected_names [])) ]
    /\ get (headers req) "Authorization" = Some ("Bearer " +:+ "secret")
    /\ get (headers req) "Content-Type"
       = Some "application/x-www-form-urlencoded".
Proof.
  apply (prepare_sends_authorized_post unreachable sample_config [] None
           fresh "secret").
  reflexivity.
Defined.

(** X2: [prepare] stores the parsed document before it looks up
    [full_sync] and [sync_token]: when the status check and the parse pass,
    the document is stored whatever the outcome; the outcome is the error of
    the first of the two keys that is missing, and the records of the
    document can be read even then. *)
Theorem prepare_stores_before_checking (server : Server)
  (cfg : option ConfigDict) (cat : option Catalog) (st : option StateDict)
  w (response : Response) (doc : json) :
  sync_response server cfg cat = Some (inr response) ->
  raise_for_status response = inr tt ->
  json_body response = Some doc ->
  _data (self (prepare server cfg cat st w).2) = doc
  /\ (prepare server cfg cat st w).1
     = match getitem doc "full_sync" with
       | inl e => inl e
       | inr _ =>
           match getitem doc "sync_token" with
           | inl e => inl e
           | inr _ => inr tt
           end
       end
  /\ forall s, (get_records s (prepare server cfg cat st w).2).1
               = getitem doc s.
Proof.
  unfold sync_response. rewrite prepare_eq.
  destruct (TodoistClient_get_auth cfg) as [e|a]; [discriminate|].
  destruct (TodoistClient_get_data cat) as [e|d]; [discriminate|].
  cbv zeta. intros Hs Hr Hb. injection Hs as Hs. rewrite Hs, Hr.
  unfold json_of. rewrite Hb.
  destruct (getitem doc "full_sync") as [e|?];
    [|destruct (getitem doc "sync_token") as [e|?]];
    cbn [fst snd];
    (split; [reflexivity|]; split; [reflexivity|]);
    intros s; by rewrite get_records_eq.
Qed.

Lemma prepare_stores_before_checking_witness :
  _data (self (prepare (answer 200 (Some bare_document)) (Some sample_config)
                 (Some []) None fresh).2) = bare_document
  /\ (prepare (answer 200 (Some bare_document)) (Some sample_config)
        (Some []) None fresh).1
     = match getitem bare_document "full_sync" with
       | inl e => inl e
       | inr _ =>
           match getitem bare_document "sync_token" with
           | inl e => inl e
           | inr _ => inr tt
           end
       end
  /\ forall s,
       (get_records s
          (prepare (answer 200 (Some bare_document)) (Some sample_config)
             (Some []) None fresh).2).1
       = getitem bare_document s.
Proof.
  apply (prepare_stores_before_checking (answer 200 (Some bare_document))
           (Some sample_config) (Some []) None fresh
           (mkResponse 200 (Some bare_document)) bare_document);
    reflexivity.
Defined.

(** X3: when the transport fails, [prepare] raises that failure after one
    request and leaves the stored data as it was. *)
Theorem prepare_transport_failure (server : Server)
  (cfg : option ConfigDict) (cat : option Catalog) (st : option StateDict)
  w (e : exn) :
  sync_response server cfg cat = Some (inl e) ->
  (prepare server cfg cat st w).1 = inl e
  /\ _data (self (prepare server cfg cat st w).2) = _data (self w)
  /\ exists req,
       log (prepare server cfg cat st w).2 = log w ++ [EvRequest req].
Proof.
  unfold sync_response. rewrite prepare_eq.
  destruct (TodoistClient_get_auth cfg) as [e'|a]; [discriminate|].
  destruct (TodoistClient_get_data cat) as [e'|d]; [discriminate|].
  cbv zeta. intros Hs. injection Hs as Hs. rewrite Hs.
  split; [done|]. split; [done|]. by eexists.
Qed.

Lemma prepare_transport_failure_witness :
  (prepare unreachable (Some sample_config) (Some []) None fresh).1
  = inl ConnectionError
  /\ _data (self (prepare unreachable (Some sample_config) (Some []) None
                    fresh).2) = _data (self fresh)
  /\ exists req,
       log (prepare unreachable (Some sample_config) (Some []) None fresh).2
       = log fresh ++ [EvRequest req].
Proof.
  apply (prepare_transport_failure unreachable (Some sample_config)
           (Some []) None fresh ConnectionError).
  reflexivity.
Defined.

(** X4: when the answer passes the status check but its body is not
    JSON, [prepare] raises the decoding error and leaves the stored data as
    it was. *)
Theorem prepare_body_not_json (server : Server)
  (cfg : option ConfigDict) (cat : option Catalog) (st : option StateDict)
  w (response : Response) :
  sync_response server cfg cat = Some (inr response) ->
  raise_for_status response = inr tt ->
  json_body response = None ->
  (prepare server cfg cat st w).1 = inl JSONDecodeError
  /\ _data (self (prepare server cfg cat st w).2) = _data (self w).
Proof.
  unfold sync_response. rewrite prepare_eq.
  destruct (TodoistClient_get_auth cfg) as [e'|a]; [discriminate|].
  destruct (TodoistClient_get_data cat) as [e'|d]; [discriminate|].
  cbv zeta. intros Hs Hr Hb. injection Hs as Hs. rewrite Hs, Hr.
  unfold json_of. rewrite Hb. done.
Qed.

Lemma prepare_body_not_json_witness :
  (prepare (answer 200 None) (Some sample_config) (Some []) None fresh).1
  = inl JSONDecodeError
  /\ _data (self (prepare (answer 200 None) (Some sample_config) (Some [])
                    None fresh).2) = _data (self fresh).
Proof.
  apply (prepare_body_not_json (answer 200 None) (Some sample_config)
           (Some []) None fresh (mkResponse 200 None)); reflexivity.
Defined.

(** X5: [prepare] never changes the configuration or the catalog of the
    client, and it sends at most one request. *)
Theorem prepare_frame (server : Server) (cfg : option ConfigDict)
  (cat : option Catalog) (st : option StateDict) w :
  config (connector (self (prepare server cfg cat st w).2))
  = config (connector (self w))
  /\ client_catalog (prepare server cfg cat st w).2 = client_catalog w
  /\ (since w (prepare server cfg cat st w).2 = []
      \/ exists req,
           since w (prepare server cfg cat st w).2 = [EvRequest req]).
Proof.
  rewrite prepare_eq.
  assert (Hn : forall w', log w' = log w -> since w w' = []).
  { intros w' Hw. unfold since. rewrite Hw. apply drop_all. }
  assert (Hr : forall w' req,
            log w' = log w ++ [EvRequest req] -> since w w' = [EvRequest req]).
  { intros w' req Hw. unfold since. rewrite Hw. apply drop_app_length. }
  destruct (TodoistClient_get_auth cfg) as [e|a]; [by auto|].
  destruct (TodoistClient_get_data cat) as [e|d]; [by auto|].
  cbv zeta.
  destruct (server _) as [e|response]; [by eauto 6|].
  destruct (raise_for_status response) as [e|[]]; [by eauto 6|].
  destruct (json_of response) as [e|j]; [by eauto 6|].
  destruct (getitem j "full_sync") as [e|?]; [by eauto 6|].
  destruct (getitem j "sync_token") as [e|?]; by eauto 6.
Qed.



End FetchMore.

(** ** More on discovery *)

Section DiscoveryMore.
Import Py catalog singer requests base_connector tap spec.
Implicit Types (w : World TodoistClient) (c : Catalog).

Lemma last_with_None (k : string) (es : list CatalogEntry) :
  k ∉ map tap_stream_id es -> last_with k es = None.
Proof.
  induction es as [|e es IH]; [done|].
  cbn [map last_with]. intros Hk.
  apply not_elem_of_cons in Hk as [Hne Hk].
  rewrite (IH Hk). by destruct (decide (tap_stream_id e = k)).
Qed.

Lemma discovered_ids : map tap_stream_id discovered = dict_keys SCHEMAS.
Proof. reflexivity. Qed.

Lemma client_catalog_with_catalog c w :
  client_catalog (with_catalog c w) = c.
Proof. by destruct w as [[[? ? ?] ?] ?]. Qed.

Lemma dict_get_values {V} (d : list (string * V)) (k : string) (v : V) :
  dict_get d k = Some v -> v ∈ dict_values d.
Proof.
  unfold dict_values.
  induction d as [|[k0 v0] d IH]; cbn [dict_get]; [done|].
  destruct (decide (k0 = k)) as [_|_].
  - intros [= ->]. apply list_elem_of_here.
  - intros Hd. apply list_elem_of_further. by apply IH.
Qed.

Lemma discovered_selected : Forall (fun e => is_selected e = true) discovered.
Proof. repeat constructor. Qed.

Lemma discovered_schemas :
  Forall
    (fun e => schema e
              = from_dict
                  (to_dict (default [] (dict_get SCHEMAS (tap_stream_id e)))))
    discovered.
Proof. repeat constructor. Qed.

(** X7: [discover] touches the catalog only: the stored data, the
    configuration and the session stay as they were, the only event is the
    discovery, and an entry stored under a name outside the table is
    kept. *)
Theorem discover_frame (cfg : option ConfigDict) w (k : string) :
  k ∉ dict_keys SCHEMAS ->
  _data (self (discover cfg w).2) = _data (self w)
  /\ config (connector (self (discover cfg w).2))
     = config (connector (self w))
  /\ client_session (discover cfg w).2 = client_session w
  /\ since w (discover cfg w).2 = [EvDiscover]
  /\ dict_get (client_catalog (discover cfg w).2) k
     = dict_get (client_catalog w) k.
Proof.
  intros Hk. rewrite discover_eq. cbn [snd].
  rewrite client_catalog_with_catalog, dict_get_register.
  rewrite last_with_None by (by rewrite discovered_ids).
  destruct w as [[[? ? ?] ?] ?].
  repeat split. unfold since. cbn [log with_catalog].
  apply drop_app_length.
Qed.

Lemma discover_frame_witness :
  _data (self (discover None
                 (with_catalog
                    [("custom", mkCatalogEntry "custom" [] (from_dict (to_dict []))
                                  None None)] fresh)).2)
  = _data (self (with_catalog
                   [("custom", mkCatalogEntry "custom" [] (from_dict (to_dict []))
                                 None None)] fresh))
  /\ config (connector (self (discover None
                 (with_catalog
                    [("custom", mkCatalogEntry "custom" [] (from_dict (to_dict []))
                                  None None)] fresh)).2))
     = config (connector (self (with_catalog
                   [("custom", mkCatalogEntry "custom" [] (from_dict (to_dict []))
                                 None None)] fresh)))
  /\ client_session (discover None
                 (with_catalog
                    [("custom", mkCatalogEntry "custom" [] (from_dict (to_dict []))
                                  None None)] fresh)).2
     = client_session (with_catalog
                   [("custom", mkCatalogEntry "custom" [] (from_dict (to_dict []))
                                 None None)] fresh)
  /\ since (with_catalog
              [("custom", mkCatalogEntry "custom" [] (from_dict (to_dict []))
                            None None)] fresh)
       (discover None
          (with_catalog
             [("custom", mkCatalogEntry "custom" [] (from_dict (to_dict []))
                           None None)] fresh)).2
     = [EvDiscover]
  /\ dict_get (client_catalog (discover None
                 (with_catalog
                    [("custom", mkCatalogEntry "custom" [] (from_dict (to_dict []))
                                  None None)] fresh)).2) "custom"
     = dict_get (client_catalog (with_catalog
                   [("custom", mkCatalogEntry "custom" [] (from_dict (to_dict []))
                                 None None)] fresh)) "custom".
Proof.
  apply (discover_frame None
           (with_catalog
              [("custom", mkCatalogEntry "custom" [] (from_dict (to_dict []))
                            None None)] fresh) "custom").
  apply (bool_decide_unpack _). vm_compute. exact I.
Defined.

(** X8: after [discover], from any state, every stream of the table is
    among the names [get_data] requests; for a new client they are exactly
    the seven names, in table order. *)
Theorem discovered_streams_are_requested (cfg : option ConfigDict) w :
  Forall
    (fun key => key ∈ selected_streams (client_catalog (discover cfg w).2))
    (dict_keys SCHEMAS)
  /\ selected_streams (client_catalog (discover cfg fresh).2)
     = dict_keys SCHEMAS.
Proof.
  rewrite !discover_eq. cbn [snd]. rewrite !client_catalog_with_catalog.
  split; [|reflexivity].
  rewrite selected_streams_eq, <- discovered_ids.
  apply Forall_fmap.
  apply Forall_forall. intros e He.
  pose proof (proj1 (Forall_forall _ _) discovered_last e He) as Hl.
  pose proof (proj1 (Forall_forall _ _) discovered_selected e He) as Hs.
  cbv beta in Hl, Hs. cbn [compose]. unfold selected_names.
  apply list_elem_of_fmap. exists e. split; [done|].
  apply list_elem_of_In, filter_In. split; [|done].
  apply list_elem_of_In, (dict_get_values _ (tap_stream_id e)).
  by rewrite dict_get_register, Hl.
Qed.

(** X9: [discover_streams] runs discovery, sends no request and returns a
    stream for every entry of the table, named after it and carrying its
    schema; for a new client these are the seven streams in table order. *)
Theorem discover_streams_builds_streams (t : TapTodoist) w :
  exists ss,
    discover_streams t w = (inr ss, (discover (Some (tap_config t)) w).2)
    /\ since w (discover_streams t w).2 = [EvDiscover]
    /\ Forall
         (fun kp => mkSyncStream (Schema_to_dict (from_dict (to_dict kp.2))) kp.1 ∈ ss)
         SCHEMAS
    /\ (discover_streams t fresh).1
       = inr (map (fun kp =>
                     mkSyncStream (Schema_to_dict (from_dict (to_dict kp.2))) kp.1)
                SCHEMAS).
Proof.
  unfold discover_streams, catalog_dict_streams, _singer_catalog.
  unfold bind, ret. rewrite !discover_eq. cbn [fst snd].
  eexists. split; [reflexivity|]. split; [|split].
  - destruct w as [[[? ? ?] ?] ?]. unfold since. cbn [log with_catalog].
    apply drop_app_length.
  - change SCHEMAS
      with (map (fun e => (tap_stream_id e,
                           default [] (dict_get SCHEMAS (tap_stream_id e))))
              discovered) at 1.
    apply Forall_fmap, Forall_forall. intros e He.
    pose proof (proj1 (Forall_forall _ _) discovered_last e He) as Hl.
    pose proof (proj1 (Forall_forall _ _) discovered_schemas e He) as Hs.
    cbv beta in Hl, Hs. cbn [compose fst snd]. rewrite <- Hs.
    apply list_elem_of_fmap. exists e. split; [done|].
    apply (dict_get_values _ (tap_stream_id e)).
    by rewrite dict_get_register, Hl.
  - reflexivity.
Qed.
End DiscoveryMore.

(** ** The auth attachment, the reads and the table, further *)

Section StaticMore.
Import Py catalog singer requests base_connector tap spec.
Implicit Types (w : World TodoistClient) (c : Catalog).


(** X11: reading a stream changes nothing in the client: a later read,
    of this or of another stream, returns what it would have returned
    before, and so does a read after another discovery. *)
Theorem get_records_read_only (s s' : string) (cfg : option ConfigDict) w :
  self (get_records s w).2 = self w
  /\ since w (get_records s w).2 = [EvRead s]
  /\ (get_records s' (get_records s w).2).1 = (get_records s' w).1
  /\ (get_records s (discover cfg w).2).1 = (get_records s w).1.
Proof.
  rewrite !get_records_eq, discover_eq. cbn [fst snd with_event self].
  split; [done|]. split; [|split; [done|]].
  - unfold since. cbn [log]. apply drop_app_length.
  - by destruct w as [[[? ? ?] ?] ?].
Qed.

Lemma dict_get_keys {V} (d : list (string * V)) (k : string) :
  match dict_get d k with
  | Some _ => k ∈ dict_keys d
  | None => k ∉ dict_keys d
  end.
Proof.
  unfold dict_keys.
  induction d as [|[k0 v0] d IH]; cbn [dict_get fmap list_fmap fst].
  - apply not_elem_of_nil.
  - destruct (decide (k0 = k)) as [->|Hne].
    + apply list_elem_of_here.
    + destruct (dict_get d k).
      * by apply list_elem_of_further.
      * apply not_elem_of_cons. split; [congruence|done].
Qed.

(** X12: the stream names of the table are pairwise distinct, and looking
    up a name succeeds exactly for those; any other name raises the
    [KeyError] of that name. *)
Theorem schema_for_unknown (key : string) :
  NoDup (dict_keys SCHEMAS)
  /\ match schema_for key with
     | inr p => key ∈ dict_keys SCHEMAS
     | inl e => e = KeyError key /\ key ∉ dict_keys SCHEMAS
     end.
Proof.
  split.
  - apply (bool_decide_unpack _). vm_compute. exact I.
  - unfold schema_for. pose proof (dict_get_keys SCHEMAS key) as H.
    destruct (dict_get SCHEMAS key); [done|by split].
Qed.

(** X13: in every schema of the table the field names are pairwise
    distinct, so that the dict of properties keeps each declared field, and
    the key field [id] is declared as a string. *)
Theorem schemas_fields_distinct :
  Forall
    (fun kp =>
       NoDup (field_names kp.2)
       /\ schema_properties (to_dict kp.2) = field_names kp.2
       /\ declared_type kp.2 "id" = Some StringType)
    SCHEMAS.
Proof.
  repeat constructor; try reflexivity;
    apply (bool_decide_unpack _); vm_compute; exact I.
Qed.
End StaticMore.

(** ** Whole runs *)

Section RunMore.
Import Py catalog singer requests base_connector tap spec.
Implicit Types (w : World TodoistClient) (c : Catalog).










(** X16: the first two events of a run with a token are the discovery and
    the request, and the request names the selected streams of the input
    catalog when the operator gave a non-empty one, and those of the
    discovered catalog otherwise. *)
Theorem sync_all_request_follows_catalog (server : Server) (t : TapTodoist)
  w (tk : string) :
  tap_config t !! "token" = Some tk ->
  exists req,
    take 2 (since w (sync_all server t w).2) = [EvDiscover; EvRequest req]
    /\ body req
       = [ ("sync_token", "*");
           ("resource_types",
            Json.dumps
              (selected_names
                 match tap_catalog t with
                 | Some (entry :: input_catalog) => entry :: input_catalog
                 | _ => client_catalog (discover (Some (tap_config t)) w).2
                 end)) ].
Proof.
  intros Ht.
  set (cat := match tap_catalog t with
              | Some (entry :: input_catalog) => entry :: input_catalog
              | _ => client_catalog (discover (Some (tap_config t)) w).2
              end).
  destruct (prepare_log_request server (Some (tap_config t)) (Some cat)
              (Some (tap_state t)) (discover (Some (tap_config t)) w).2
              (bearer tk)
              [("sync_token", "*");
               ("resource_types", Json.dumps (selected_streams cat))])
    as (Hl & _); [by apply get_auth_token | reflexivity |].
  assert (Hfs : fetch_stage server t w
                = prepare server (Some (tap_config t)) (Some cat)
                    (Some (tap_state t)) (discover (Some (tap_config t)) w).2)
    by (unfold fetch_stage, discovery_stage, cat; exact eq_refl).
  rewrite <- Hfs in Hl. clear Hfs.
  assert (Hd : log (discover (Some (tap_config t)) w).2
               = log w ++ [EvDiscover]).
  { rewrite discover_eq. by destruct w as [[[? ? ?] ?] ?]. }
  rewrite Hd, <- app_assoc in Hl. cbn [app] in Hl.
  exists (sync_request (bearer tk)
            [("sync_token", "*");
             ("resource_types", Json.dumps (selected_streams cat))]).
  split; [|by rewrite <- selected_streams_eq].
  rewrite sync_all_eq.
  destruct (fetch_stage server t w) as [[e|[]] w2]; cbn [fst snd] in *.
  - unfold since. rewrite Hl, drop_app_length. reflexivity.
  - destruct (Tap_sync_all_log t w2) as [names Hk].
    unfold since. rewrite Hk, Hl, <- app_assoc.
    rewrite drop_app_length. reflexivity.
Qed.

Lemma sync_all_request_follows_catalog_witness :
  exists req,
    take 2 (since fresh
              (sync_all unreachable
                 (mkTapTodoist sample_config
                    (Some (select_only ["labels"] (register [] discovered)))
                    ∅)
                 fresh).2)
    = [EvDiscover; EvRequest req]
    /\ body req
       = [ ("sync_token", "*");
           ("resource_types",
            Json.dumps
              (selected_names
                 match
                   Some (select_only ["labels"] (register [] discovered))
                 with
                 | Some (entry :: input_catalog) => entry :: input_catalog
                 | _ =>
                     client_catalog (discover (Some sample_config) fresh).2
                 end)) ].
Proof.
  apply (sync_all_request_follows_catalog unreachable
           (mkTapTodoist sample_config
              (Some (select_only ["labels"] (register [] discovered))) ∅)
           fresh "secret").
  reflexivity.
Defined.
End RunMore.

(** ** The body on the wire, the defaults and a second fetch *)

Section BodyMore.
Import Py catalog singer requests base_connector tap spec.
Implicit Types (w : World TodoistClient) (c : Catalog).

Lemma printable_app (a b : string) :
  printable (a +:+ b) = printable a && printable b.
Proof.
  induction a as [|x a IH]; [reflexivity|].
  rewrite append_cons. cbn [printable]. rewrite IH. by rewrite andb_assoc.
Qed.

Lemma printable_escape_char (ch : ascii) :
  printable (Json.escape_char ch) = true.
Proof. destruct ch as [[] [] [] [] [] [] [] []]; reflexivity. Qed.

Lemma printable_escape (s : string) : printable (Json.escape s) = true.
Proof.
  induction s as [|ch s IH]; [reflexivity|].
  change (Json.escape (String ch s))
    with (Json.escape_char ch +:+ Json.escape s).
  by rewrite printable_app, printable_escape_char, IH.
Qed.

Lemma printable_encode (s : string) :
  printable (Json.encode_basestring_ascii s) = true.
Proof.
  unfold Json.encode_basestring_ascii.
  change (printable (String Json.dquote (Json.escape s +:+ String Json.dquote "")))
    with (printable (Json.escape s +:+ String Json.dquote "")).
  by rewrite printable_app, printable_escape.
Qed.

Lemma printable_join (items : list string) :
  Forall (fun i => printable i = true) items ->
  printable (Json.join_items items) = true.
Proof.
  induction items as [|x [|y items] IH]; intros Hi; [reflexivity| |].
  - by inversion Hi.
  - inversion Hi as [|? ? Hx Hi']; subst.
    change (Json.join_items (x :: y :: items))
      with (x +:+ ", " +:+ Json.join_items (y :: items)).
    rewrite !printable_app, Hx, (IH Hi'). reflexivity.
Qed.

Lemma printable_dumps (l : list string) : printable (Json.dumps l) = true.
Proof.
  unfold Json.dumps.
  change ("[" +:+ Json.join_items (map Json.encode_basestring_ascii l) +:+ "]")
    with (String "[" (Json.join_items (map Json.encode_basestring_ascii l) +:+ "]")).
  cbn [printable]. rewrite printable_app, printable_join; [reflexivity|].
  apply Forall_fmap, Forall_forall. intros s _. apply printable_encode.
Qed.

(** X17: every field name and value of the body [get_data] builds is
    printable ASCII, whatever the stream names of the catalog. *)
Theorem get_data_is_printable_ascii (me : TodoistClient)
  (cfg : option ConfigDict) (c : Catalog) (st : option StateDict) :
  exists fields,
    get_data me cfg (Some c) st = inr fields
    /\ Forall (fun kv => printable kv.1 = true /\ printable kv.2 = true)
         fields.
Proof.
  eexists. split; [reflexivity|].
  repeat constructor. cbn [snd]. apply printable_dumps.
Qed.

(** X18: [prepare] called without a configuration fails with [TypeError]
    and changes nothing; called with a token but without a catalog it fails
    with [AttributeError] after installing the auth, and sends nothing. *)
Theorem prepare_needs_its_arguments (server : Server) (cfg : ConfigDict)
  (cat : option Catalog) (st : option StateDict) w (t : string) :
  cfg !! "token" = Some t ->
  prepare server None cat st w = (inl TypeError, w)
  /\ prepare server (Some cfg) None st w
     = (inl AttributeError, with_auth (bearer t) w)
  /\ since w (prepare server (Some cfg) None st w).2 = [].
Proof.
  intros Ht. rewrite !prepare_eq, (get_auth_token cfg t Ht).
  repeat split. cbn [snd TodoistClient_get_data]. unfold since.
  cbn [with_auth log]. apply drop_all.
Qed.

Lemma prepare_needs_its_arguments_witness :
  prepare (answer 200 (Some sample_document)) None (Some []) None fresh
  = (inl TypeError, fresh)
  /\ prepare (answer 200 (Some sample_document)) (Some sample_config) None
       None fresh
     = (inl AttributeError, with_auth (bearer "secret") fresh)
  /\ since fresh
       (prepare (answer 200 (Some sample_document)) (Some sample_config)
          None None fresh).2 = [].
Proof.
  apply (prepare_needs_its_arguments (answer 200 (Some sample_document))
           sample_config (Some []) None fresh "secret").
  reflexivity.
Defined.

(** X19: after a successful fetch, a second fetch that is answered with an
    error status raises, and the records of the first fetch are still
    returned. *)
Theorem stale_records_after_failed_refetch (server1 server2 : Server)
  (cfg1 cfg2 : option ConfigDict) (cat1 cat2 : option Catalog)
  (st1 st2 : option StateDict) w (response1 response2 : Response)
  (doc v : json) (s : string) :
  (prepare server1 cfg1 cat1 st1 w).1 = inr tt ->
  sync_response server1 cfg1 cat1 = Some (inr response1) ->
  json_body response1 = Some doc ->
  getitem doc s = inr v ->
  sync_response server2 cfg2 cat2 = Some (inr response2) ->
  400 <= status_code response2 < 600 ->
  (prepare server2 cfg2 cat2 st2 (prepare server1 cfg1 cat1 st1 w).2).1
  = inl (HTTPError (status_code response2))
  /\ (get_records s
        (prepare server2 cfg2 cat2 st2
           (prepare server1 cfg1 cat1 st1 w).2).2).1 = inr v.
Proof.
  intros Hok Hs1 Hb1 Hv Hs2 Hc.
  assert (Hd : _data (self (prepare server1 cfg1 cat1 st1 w).2) = doc).
  { revert Hok. rewrite prepare_eq. revert Hs1. unfold sync_response.
    destruct (TodoistClient_get_auth cfg1) as [e|a]; [discriminate|].
    destruct (TodoistClient_get_data cat1) as [e|d]; [discriminate|].
    cbv zeta. intros Hs. injection Hs as Hs. rewrite Hs.
    destruct (raise_for_status response1) as [e|[]]; [discriminate|].
    unfold json_of. rewrite Hb1.
    destruct (getitem doc "full_sync") as [e|?]; [discriminate|].
    destruct (getitem doc "sync_token") as [e|?]; [discriminate|]. done. }
  destruct (prepare_http_error_keeps_data server2 cfg2 cat2 st2
              (prepare server1 cfg1 cat1 st1 w).2 response2 Hs2 Hc)
    as (Hr & Hk & _).
  split; [done|]. by rewrite get_records_eq, Hk, Hd.
Qed.

Lemma stale_records_after_failed_refetch_witness :
  (prepare (answer 503 None) (Some sample_config) (Some []) None
     (prepare (answer 200 (Some sample_document)) (Some sample_config)
        (Some []) None fresh).2).1
  = inl (HTTPError (status_code (mkResponse 503 None)))
  /\ (get_records "projects"
        (prepare (answer 503 None) (Some sample_config) (Some []) None
           (prepare (answer 200 (Some sample_document)) (Some sample_config)
              (Some []) None fresh).2).2).1
     = inr (JArr [JObj (<["id" := JStr "1"]> (<["name" := JStr "A"]> ∅))]).
Proof.
  apply (stale_records_after_failed_refetch
           (answer 200 (Some sample_document)) (answer 503 None)
           (Some sample_config) (Some sample_config) (Some []) (Some [])
           None None fresh (mkResponse 200 (Some sample_document))
           (mkResponse 503 None) sample_document
           (JArr [JObj (<["id" := JStr "1"]> (<["name" := JStr "A"]> ∅))])
           "projects").
  - vm_compute. reflexivity.
  - reflexivity.
  - reflexivity.
  - reflexivity.
  - reflexivity.
  - cbn [status_code]. lia.
Defined.
End BodyMore.
